(** * Box_sync: folder synchronisation and audit

    A shallow embedding of [Box_sync.py] (the reconciliation engine
    [sync_and_verify], the checksum helper, the backup rotation and the
    audit-sheet writer) together with the properties of the engine.

    Conventions of the embedding.
    - A path is the list of its components, so [os.path.join] is list
      concatenation, [os.path.dirname] drops the last component and
      [os.path.basename] returns it.
    - The file system is a finite map from paths to regular files.
      Directories exist implicitly ([os.makedirs] has nothing to create).
    - Every I/O call that may raise returns a value of [Exc]: the message of
      the exception ([str(e)]) or the result.
    - [hashlib], [strftime] and the xlsx encoding are an interface
      ([Runtime]); nothing is assumed about them.
    - The two callbacks and the calls to [shutil.copy2], [os.path.getsize]
      and [compute_checksum] made by the loop are recorded in a list of
      events, which is how call counts are observed. *)

From stdpp Require Import base option list gmap strings pretty sorting.
From Stdlib Require Import Strings.Byte Ascii.

Abbreviation Path := (list string).

(** ** Exceptions *)

Definition Exc (A : Type) : Type := (string + A)%type.

Definition exc_bind {A B} (m : Exc A) (k : A → Exc B) : Exc B :=
  match m with
  | inl e => inl e
  | inr a => k a
  end.

(** The call returned normally. *)
Definition succeeds {A} (m : Exc A) : bool :=
  match m with
  | inr _ => true
  | inl _ => false
  end.

(** The value returned, or [d] if the call raised. *)
Definition result_or {A} (d : A) (m : Exc A) : A :=
  match m with
  | inr a => a
  | inl _ => d
  end.

Notation "'try!' x := m 'in' k" := (exc_bind m (λ x, k))
  (at level 10, x binder, k at level 200).

(** ** Python string methods used by the program *)

Module Str.

(** [s.startswith(pre)] *)
Definition startswith (pre s : string) : bool := String.prefix pre s.

(** [s.endswith(suf)] *)
Definition endswith (suf s : string) : bool :=
  let n := String.length s in
  let k := String.length suf in
  (k <=? n) && String.eqb (String.substring (n - k) k s) suf.

(** [s.replace(old, new)] for a non-empty [old]: the occurrences of [old]
    are replaced from left to right, without overlap.  [skip] counts the
    characters of an occurrence that are still to be dropped. *)
Fixpoint replace_from (old new : string) (skip : nat) (s : string) : string :=
  match s with
  | EmptyString => EmptyString
  | String c s' =>
      match skip with
      | S k => replace_from old new k s'
      | O =>
          if String.prefix old s
          then new +:+ replace_from old new (String.length old - 1) s'
          else String c (replace_from old new 0 s')
      end
  end.

Definition replace (old new s : string) : string := replace_from old new 0 s.

(** Number of occurrences of a character. *)
Fixpoint count (c : ascii) (s : string) : nat :=
  match s with
  | EmptyString => 0
  | String d s' => (if Ascii.eqb c d then 1 else 0) + count c s'
  end.

End Str.

(** ** os.path *)

Definition path_join (a b : Path) : Path := a ++ b.
Definition dirname (p : Path) : Path := removelast p.
Definition basename (p : Path) : string := List.last p "".
(** [os.path.relpath(p, start)] for a path below [start]. *)
Definition relpath (p start : Path) : Path := drop (length start) p.
(** The path as the text Python prints. *)
Definition show_path (p : Path) : string := String.concat "/" p.
(** [p] lies strictly below the directory [top]. *)
Definition below (top p : Path) : bool :=
  bool_decide (take (length top) p = top) && bool_decide (length top < length p).

(** ** Report workbook *)

Inductive CellValue :=
| VEmpty
| VText (s : string)
| VBool (b : bool)
| VPath (p : Path).

Record Cell := { value : CellValue; fill : option string }.

Definition plain (v : CellValue) : Cell := {| value := v; fill := None |}.

Abbreviation Sheet := (list (list Cell)).
(** A workbook is the ordered list of its named sheets. *)
Abbreviation Workbook := (list (string * list (list Cell))).

Record FileRecord := {
  relative_path : Path;
  source_path : Path;
  date_copied : option string;      (* [None] is [pd.NaT] *)
  exists_in_folder1 : bool;
  exists_in_folder2 : bool }.

Abbreviation DataFrame := (list FileRecord).

Record AuditRecord := {
  audit_timestamp : string;
  audit_relative_path : Path;
  audit_status : string }.

(** ** Runtime interface: hashlib, datetime formatting, xlsx encoding *)

Class Runtime := {
  Hasher : Type;
  sha_new : Hasher;                               (* hashlib.new('sha256') *)
  sha_update : Hasher → list byte → Hasher;
  sha_hexdigest : Hasher → string;
  strftime : string → nat → string;               (* t.strftime(fmt) *)
  time_str : nat → string;                        (* str(t) *)
  xlsx_bytes : Workbook → list byte }.

(** ** The file system *)

Inductive Content :=
| Raw (bs : list byte)
| Xlsx (wb : Workbook).

Record Node := {
  content : Content;
  mtime : nat;
  read_error : option string }.      (* [Some msg]: opening or reading raises *)

Record World := {
  files : gmap Path Node;
  write_denied : gmap Path string;   (* creating or overwriting raises *)
  remove_denied : gmap Path string;  (* [os.remove] raises *)
  clock : nat;
  stdout : list string }.

Definition set_files (m : gmap Path Node) (w : World) : World :=
  {| files := m; write_denied := write_denied w;
     remove_denied := remove_denied w; clock := clock w; stdout := stdout w |}.

Definition print (line : string) (w : World) : World :=
  {| files := files w; write_denied := write_denied w;
     remove_denied := remove_denied w; clock := clock w;
     stdout := stdout w ++ [line] |}.

(** [datetime.now()]: the reading, and the world in which time has passed. *)
Definition now (w : World) : nat * World :=
  (clock w,
   {| files := files w; write_denied := write_denied w;
      remove_denied := remove_denied w; clock := S (clock w);
      stdout := stdout w |}).

Section Program.
Context `{RT : Runtime}.

Definition file_bytes (c : Content) : list byte :=
  match c with
  | Raw bs => bs
  | Xlsx wb => xlsx_bytes wb
  end.

(** [open(path, 'rb')] followed by reading the whole file. *)
Definition read_file (w : World) (p : Path) : Exc (list byte) :=
  match files w !! p with
  | None => inl ("[Errno 2] No such file or directory: '" +:+ show_path p +:+ "'")
  | Some n =>
      match read_error n with
      | Some e => inl e
      | None => inr (file_bytes (content n))
      end
  end.

(** [while chunk := f.read(8192): hash_func.update(chunk)].  Every turn
    of the loop consumes at least one byte, so [length data] turns are
    enough. *)
Definition chunk_size : nat := 8 * 1024.

Fixpoint read_loop (fuel : nat) (h : Hasher) (data : list byte) : Hasher :=
  match fuel with
  | O => h
  | S fuel' =>
      match take chunk_size data with
      | [] => h
      | chunk => read_loop fuel' (sha_update h chunk) (drop chunk_size data)
      end
  end.

Definition compute_checksum (w : World) (file_path : Path) : string :=
  match read_file w file_path with
  | inr data => sha_hexdigest (read_loop (length data) sha_new data)
  | inl e => "ERROR: " +:+ e
  end.

Definition get_file_size (w : World) (file_path : Path) : option nat :=
  match files w !! file_path with
  | Some n => Some (length (file_bytes (content n)))
  | None => None
  end.

Definition file_exists (w : World) (path : Path) : bool :=
  bool_decide (is_Some (files w !! path)).

Definition getmtime (w : World) (p : Path) : nat :=
  from_option mtime 0 (files w !! p).

(** [os.makedirs(d, exist_ok=True)]: directories are implicit. *)
Definition makedirs (d : Path) (w : World) : Exc World := inr w.

(** [shutil.copy2(src, dst)]: content and metadata. *)
Definition shutil_copy2 (src dst : Path) (w : World) : Exc World :=
  match files w !! src with
  | None => inl ("[Errno 2] No such file or directory: '" +:+ show_path src +:+ "'")
  | Some n =>
      if bool_decide (src = dst)
      then inl ("'" +:+ show_path src +:+ "' and '" +:+ show_path dst
                +:+ "' are the same file")
      else
        match read_error n with
        | Some e => inl e
        | None =>
            match write_denied w !! dst with
            | Some e => inl e
            | None =>
                inr (set_files
                       (<[dst := {| content := content n; mtime := mtime n;
                                    read_error := None |}]> (files w)) w)
            end
        end
  end.

Definition os_remove (p : Path) (w : World) : Exc World :=
  match files w !! p with
  | None => inl ("[Errno 2] No such file or directory: '" +:+ show_path p +:+ "'")
  | Some _ =>
      match remove_denied w !! p with
      | Some e => inl e
      | None => inr (set_files (delete p (files w)) w)
      end
  end.

(** Writing a workbook to [p] ([df.to_excel], [book.save]). *)
Definition write_workbook (p : Path) (wb : Workbook) (w : World) : Exc World :=
  match write_denied w !! p with
  | Some e => inl e
  | None =>
      inr (set_files
             (<[p := {| content := Xlsx wb; mtime := clock w;
                        read_error := None |}]> (files w)) w)
  end.

(** Reading a workbook from [p] ([load_workbook], [pd.read_excel]). *)
Definition load_workbook (p : Path) (w : World) : Exc Workbook :=
  match files w !! p with
  | None => inl ("[Errno 2] No such file or directory: '" +:+ show_path p +:+ "'")
  | Some n =>
      match read_error n, content n with
      | Some e, _ => inl e
      | None, Xlsx wb => inr wb
      | None, Raw _ => inl "File is not a zip file"
      end
  end.

(** [os.listdir(folder)]: the names of the files directly in [folder]. *)
Definition listdir (w : World) (folder : Path) : list string :=
  omap (λ p, if bool_decide (p ≠ [] ∧ dirname p = folder)
             then Some (basename p) else None)
       (map_to_list (files w)).*1.

(** ** The reconciliation loop (lines 79-147) *)

Inductive Event :=
| StatusCb (msg : string)                 (* status_callback(msg) *)
| ProgressCb (current total : nat)        (* progress_callback(current, total) *)
| CopyCall (src dst : Path)               (* shutil.copy2(src, dst) *)
| SizeCall (p : Path)                     (* get_file_size(p) *)
| ChecksumCall (p : Path).                (* compute_checksum(p) *)

(** The variables of [sync_and_verify] that live across iterations. *)
Record RunState := {
  world : World;
  copied_files : nat;
  verified_files : nat;
  mismatched_files : nat;
  missing_files : nat;
  error_log_entries : list string;
  audit_records : list AuditRecord;
  calls : list Event }.

Definition init_state (w : World) : RunState :=
  {| world := w; copied_files := 0; verified_files := 0;
     mismatched_files := 0; missing_files := 0;
     error_log_entries := []; audit_records := []; calls := [] |}.

Definition set_world (w : World) (st : RunState) : RunState :=
  {| world := w; copied_files := copied_files st;
     verified_files := verified_files st;
     mismatched_files := mismatched_files st;
     missing_files := missing_files st;
     error_log_entries := error_log_entries st;
     audit_records := audit_records st; calls := calls st |}.

Definition emit (e : Event) (st : RunState) : RunState :=
  {| world := world st; copied_files := copied_files st;
     verified_files := verified_files st;
     mismatched_files := mismatched_files st;
     missing_files := missing_files st;
     error_log_entries := error_log_entries st;
     audit_records := audit_records st; calls := calls st ++ [e] |}.

Definition add_copied (st : RunState) : RunState :=
  {| world := world st; copied_files := copied_files st + 1;
     verified_files := verified_files st;
     mismatched_files := mismatched_files st;
     missing_files := missing_files st;
     error_log_entries := error_log_entries st;
     audit_records := audit_records st; calls := calls st |}.

Definition add_verified (st : RunState) : RunState :=
  {| world := world st; copied_files := copied_files st;
     verified_files := verified_files st + 1;
     mismatched_files := mismatched_files st;
     missing_files := missing_files st;
     error_log_entries := error_log_entries st;
     audit_records := audit_records st; calls := calls st |}.

Definition add_mismatched (st : RunState) : RunState :=
  {| world := world st; copied_files := copied_files st;
     verified_files := verified_files st;
     mismatched_files := mismatched_files st + 1;
     missing_files := missing_files st;
     error_log_entries := error_log_entries st;
     audit_records := audit_records st; calls := calls st |}.

Definition add_missing (st : RunState) : RunState :=
  {| world := world st; copied_files := copied_files st;
     verified_files := verified_files st;
     mismatched_files := mismatched_files st;
     missing_files := missing_files st + 1;
     error_log_entries := error_log_entries st;
     audit_records := audit_records st; calls := calls st |}.

(** [error_log_entries.append(f"[{datetime.now()}] {msg}")] *)
Definition log_error (msg : string) (st : RunState) : RunState :=
  let '(t, w) := now (world st) in
  {| world := w; copied_files := copied_files st;
     verified_files := verified_files st;
     mismatched_files := mismatched_files st;
     missing_files := missing_files st;
     error_log_entries :=
       error_log_entries st ++ ["[" +:+ time_str t +:+ "] " +:+ msg];
     audit_records := audit_records st; calls := calls st |}.

Definition add_audit (a : AuditRecord) (st : RunState) : RunState :=
  {| world := world st; copied_files := copied_files st;
     verified_files := verified_files st;
     mismatched_files := mismatched_files st;
     missing_files := missing_files st;
     error_log_entries := error_log_entries st;
     audit_records := audit_records st ++ [a]; calls := calls st |}.

Definition set_exists (e1 e2 : bool) (r : FileRecord) : FileRecord :=
  {| relative_path := relative_path r; source_path := source_path r;
     date_copied := date_copied r;
     exists_in_folder1 := e1; exists_in_folder2 := e2 |}.

Definition set_date (d : option string) (r : FileRecord) : FileRecord :=
  {| relative_path := relative_path r; source_path := source_path r;
     date_copied := d;
     exists_in_folder1 := exists_in_folder1 r;
     exists_in_folder2 := exists_in_folder2 r |}.

(** The variables of one iteration: the row of [df] being updated, the
    two probes ([ex1], [ex2] for the source's exists1 and exists2, the
    latter being reserved here), [status], and the run state. *)
Record Iter := {
  row : FileRecord;
  ex1 : bool;
  ex2 : bool;
  status : string;
  run : RunState }.

Definition with_status (s : string) (st : RunState) (it : Iter) : Iter :=
  {| row := row it; ex1 := ex1 it; ex2 := ex2 it;
     status := s; run := st |}.

Definition with_row (r : FileRecord) (it : Iter) : Iter :=
  {| row := r; ex1 := ex1 it; ex2 := ex2 it;
     status := status it; run := run it |}.

Section Body.
Variable folder1 : Path.
Variable force_recopy : bool.

Definition dest_path (r : FileRecord) : Path :=
  path_join folder1 (relative_path r).

(** Lines 86-96: probe both trees, store the flags, announce the file. *)
Definition probe (r : FileRecord) (st : RunState) : Iter :=
  let e1 := file_exists (world st) (dest_path r) in
  let e2 := file_exists (world st) (source_path r) in
  {| row := set_exists e1 e2 r; ex1 := e1; ex2 := e2;
     status := "";
     run := emit (StatusCb ("Processing: " +:+ show_path (relative_path r))) st |}.

(** Lines 98-103. *)
Definition flag_phase (it : Iter) : Iter :=
  if negb (ex2 it) then
    with_status "Missing in Folder 2"
      (log_error ("Missing in Folder 2 - " +:+ show_path (relative_path (row it)))
                 (add_missing (run it)))
      it
  else if negb (ex1 it) && force_recopy then
    with_row (set_date None (row it)) it
  else it.

(** Lines 106-117. *)
Definition copy_phase (it : Iter) : Iter :=
  let r := row it in
  match date_copied r with
  | None =>
      let st := emit (CopyCall (source_path r) (dest_path r)) (run it) in
      match (try! w := makedirs (dirname (dest_path r)) (world st) in
             shutil_copy2 (source_path r) (dest_path r) w) with
      | inr w =>
          let '(t, w') := now w in
          with_status "Copied" (add_copied (set_world w' st))
            (with_row (set_date (Some (strftime "%Y-%m-%d %H:%M:%S" t)) r) it)
      | inl e =>
          let s := "Error copying: " +:+ e in
          with_status s
            (log_error (s +:+ " - " +:+ show_path (relative_path r)) st) it
      end
  | Some _ => with_status "Already Copied" (run it) it
  end.

(** Lines 119-135. *)
Definition verify_phase (it : Iter) : Iter :=
  let r := row it in
  let w := world (run it) in
  if file_exists w (dest_path r) then
    let st := emit (SizeCall (dest_path r))
                   (emit (SizeCall (source_path r)) (run it)) in
    let source_size := get_file_size w (source_path r) in
    let dest_size := get_file_size w (dest_path r) in
    if bool_decide (source_size ≠ dest_size) then
      with_status "Size Mismatch" (add_mismatched st) it
    else
      let st := emit (ChecksumCall (dest_path r))
                     (emit (ChecksumCall (source_path r)) st) in
      let source_hash := compute_checksum w (source_path r) in
      let dest_hash := compute_checksum w (dest_path r) in
      if bool_decide (source_hash ≠ dest_hash) then
        with_status "Checksum Mismatch" (add_mismatched st) it
      else
        with_status
          (if bool_decide (status it ≠ "Copied") then "Verified" else status it)
          (add_verified st) it
  else it.

(** Lines 136-139: the [else] of the second test of exists2. *)
Definition missing_phase (it : Iter) : Iter :=
  with_status "Missing in Folder 1"
    (log_error ("Missing in Folder 1 - " +:+ show_path (relative_path (row it)))
               (add_missing (run it)))
    it.

(** Lines 105-139. *)
Definition decide_phase (it : Iter) : Iter :=
  if ex2 it then verify_phase (copy_phase it) else missing_phase it.

(** Lines 141-147. *)
Definition finish (timestamp : string) (total_files index : nat) (it : Iter)
  : RunState :=
  emit (ProgressCb (index + 1) total_files)
    (add_audit {| audit_timestamp := timestamp;
                  audit_relative_path := relative_path (row it);
                  audit_status := status it |} (run it)).

(** One iteration of [for index, row in df.iterrows()]. *)
Definition iteration (r : FileRecord) (st : RunState) : Iter :=
  decide_phase (flag_phase (probe r st)).

Definition process_record (timestamp : string) (total_files index : nat)
    (r : FileRecord) (st : RunState) : FileRecord * RunState :=
  let it := iteration r st in
  (row it, finish timestamp total_files index it).

Fixpoint run_loop (timestamp : string) (total_files index : nat)
    (df : DataFrame) (st : RunState) : DataFrame * RunState :=
  match df with
  | [] => ([], st)
  | r :: rest =>
      let '(r', st') := process_record timestamp total_files index r st in
      let '(rest', st'') := run_loop timestamp total_files (S index) rest st' in
      (r' :: rest', st'')
  end.

(** Lines 79-147: the counters start at zero and every row is visited. *)
Definition reconcile (timestamp : string) (df : DataFrame) (w : World)
  : DataFrame * RunState :=
  run_loop timestamp (length df) 0 df (init_state w).

End Body.

End Program.

#[global] Instance CellValue_eq_dec : EqDecision CellValue.
Proof. solve_decision. Defined.

(** ** Backup rotation (lines 34-53) *)

Section Backup.
Context `{RT : Runtime}.

(** [sorted(l, key=key, reverse=True)]: descending, and stable (items
    with equal keys keep their order). *)
Fixpoint insert_desc (key : Path → nat) (x : Path) (l : list Path) : list Path :=
  match l with
  | [] => [x]
  | y :: l' => if key x <? key y then y :: insert_desc key x l' else x :: l
  end.

Definition sorted_desc (key : Path → nat) (l : list Path) : list Path :=
  foldr (insert_desc key) [] l.

(** [f.startswith(base_name + "_backup_") and f.endswith(".xlsx")] *)
Definition is_backup_name (report_path : Path) (f : string) : bool :=
  let base_name := Str.replace ".xlsx" "" (basename report_path) in
  Str.startswith (base_name +:+ "_backup_") f && Str.endswith ".xlsx" f.

(** The list [backups] of [cleanup_old_backups]. *)
Definition backups (report_path : Path) (w : World) : list Path :=
  let folder := dirname report_path in
  sorted_desc (getmtime w)
    ((λ f, path_join folder [f])
       <$> filter (λ f, is_backup_name report_path f) (listdir w folder)).

(** The body of the [for old_backup] loop: [os.remove] under [try]. *)
Definition remove_logged (w : World) (old_backup : Path) : World :=
  match os_remove old_backup w with
  | inr w' => w'
  | inl e =>
      print ("Failed to delete old backup: " +:+ show_path old_backup
             +:+ " - " +:+ e) w
  end.

Definition cleanup_old_backups (report_path : Path) (keep_last : nat)
    (w : World) : World :=
  foldl remove_logged w (drop keep_last (backups report_path w)).

(** [report_path.replace(".xlsx", f"_backup_{timestamp}.xlsx")] *)
Definition backup_path (report_path : Path) (timestamp : string) : Path :=
  map (Str.replace ".xlsx" ("_backup_" +:+ timestamp +:+ ".xlsx")) report_path.

Definition backup_excel (report_path : Path) (w : World) : Exc World :=
  if file_exists w report_path then
    let '(t, w1) := now w in
    let timestamp := strftime "%Y-%m-%d_%H-%M-%S" t in
    try! w2 := shutil_copy2 report_path (backup_path report_path timestamp) w1 in
    inr (cleanup_old_backups report_path 7 w2)
  else inr w.

End Backup.

(** ** The report: primary table, audit sheet, highlighting *)

Section Report.
Context `{RT : Runtime}.

Definition columns : list string :=
  ["Relative Path"; "Source Path"; "Date Copied to Folder 1";
   "Exists in Folder 1"; "Exists in Folder 2"].

Definition record_cells (r : FileRecord) : list CellValue :=
  [VPath (relative_path r); VPath (source_path r);
   from_option VText VEmpty (date_copied r);
   VBool (exists_in_folder1 r); VBool (exists_in_folder2 r)].

(** [df.to_excel(report_path, index=False)]: a new workbook with one
    sheet, the header row and one row per record. *)
Definition to_excel (df : DataFrame) : Workbook :=
  [("Sheet1", map (map plain) (map VText columns :: map record_cells df))].

Definition parse_record (cells : list CellValue) : option FileRecord :=
  match cells with
  | [VPath rel; VPath src; d; VBool e1; VBool e2] =>
      match d with
      | VEmpty => Some {| relative_path := rel; source_path := src;
                          date_copied := None;
                          exists_in_folder1 := e1; exists_in_folder2 := e2 |}
      | VText s => Some {| relative_path := rel; source_path := src;
                           date_copied := Some s;
                           exists_in_folder1 := e1; exists_in_folder2 := e2 |}
      | _ => None
      end
  | _ => None
  end.

(** [pd.read_excel(report_path)]: the first sheet, values only.  Only
    tables with the five columns that the program writes are accepted. *)
Definition read_excel (wb : Workbook) : Exc DataFrame :=
  match wb with
  | [] => inl "Worksheet index 0 is invalid, 0 worksheets found"
  | (_, sh) :: _ =>
      match map (map value) sh with
      | [] => inr []
      | hdr :: rows =>
          if bool_decide (hdr = map VText columns) then
            match mapM parse_record rows with
            | Some df => inr df
            | None => inl "unexpected cell in the primary table"
            end
          else inl "unexpected columns in the primary table"
      end
  end.

(** [os.walk(folder2)]: every file below [top]; the order is the one in
    which the file system enumerates them. *)
Definition os_walk (w : World) (top : Path) : list Path :=
  filter (λ p, below top p) (map_to_list (files w)).*1.

(** Lines 65-77. *)
Definition bootstrap (w : World) (folder2 : Path) : DataFrame :=
  map (λ full_path,
         {| relative_path := relpath full_path folder2;
            source_path := full_path;
            date_copied := None;
            exists_in_folder1 := false;
            exists_in_folder2 := true |})
      (os_walk w folder2).

(** Lines 62-77. *)
Definition load_inventory (folder2 report_path : Path) (w : World)
  : Exc DataFrame :=
  if file_exists w report_path then
    try! wb := load_workbook report_path w in read_excel wb
  else inr (bootstrap w folder2).

(** [dataframe_to_rows(audit_df, index=False, header=True)] *)
Definition audit_rows (records : list AuditRecord) : list (list CellValue) :=
  match records with
  | [] => [[]]
  | _ =>
      [VText "Timestamp"; VText "Relative Path"; VText "Status"]
      :: map (λ a, [VText (audit_timestamp a); VPath (audit_relative_path a);
                    VText (audit_status a)]) records
  end.

(** [book.create_sheet(name)]; the book has just been written by
    [to_excel], so the name is free. *)
Definition create_sheet (name : string) (book : Workbook) : Workbook :=
  book ++ [(name, [])].

(** [book[name].append(r)] *)
Fixpoint sheet_append (name : string) (r : list Cell) (book : Workbook)
  : Workbook :=
  match book with
  | [] => []
  | (n, sh) :: rest =>
      if String.eqb n name then (n, sh ++ [r]) :: rest
      else (n, sh) :: sheet_append name r rest
  end.

Definition red_fill : string := "FFC7CE".

Definition problem_statuses : list string :=
  ["Missing in Folder 1"; "Missing in Folder 2"; "Size Mismatch";
   "Checksum Mismatch"].

Definition cell_text (v : CellValue) : option string :=
  match v with
  | VText s => Some s
  | VPath p => Some (show_path p)
  | _ => None
  end.

(** [status_cell.value in [...]] *)
Definition is_problem (c : Cell) : bool :=
  match cell_text (value c) with
  | Some s => bool_decide (s ∈ problem_statuses)
  | None => false
  end.

Definition max_column (sh : Sheet) : nat :=
  max 1 (foldr max 0 (map length sh)).

(** Python's [t[i]] on a tuple, negative indices counting from the end. *)
Definition py_index {A} (t : list A) (i : Z) : option A :=
  if (i <? 0)%Z then
    if (- i <=? Z.of_nat (length t))%Z
    then t !! Z.to_nat (Z.of_nat (length t) + i) else None
  else t !! Z.to_nat i.

Definition paint (c : Cell) : Cell :=
  {| value := value c; fill := Some red_fill |}.

(** The body of [for row in main_sheet.iter_rows(min_row=2, max_col=n)]:
    the row is seen with [n] cells. *)
Definition highlight_row (n : nat) (r : list Cell) : Exc (list Cell) :=
  let cells := r ++ replicate (n - length r) (plain VEmpty) in
  match py_index cells (Z.of_nat n - 3) with
  | None => inl "tuple index out of range"
  | Some status_cell =>
      inr (if is_problem status_cell then map paint cells else r)
  end.

Fixpoint highlight_rows (n : nat) (rows : Sheet) : Exc Sheet :=
  match rows with
  | [] => inr []
  | r :: rest =>
      try! r' := highlight_row n r in
      try! rest' := highlight_rows n rest in
      inr (r' :: rest')
  end.

(** Lines 160-166, on [book[book.sheetnames[0]]]. *)
Definition highlight_main (book : Workbook) : Exc Workbook :=
  match book with
  | [] => inl "list index out of range"
  | (name, sh) :: rest =>
      match sh with
      | [] => inr book
      | hdr :: rows =>
          try! rows' := highlight_rows (max_column sh) rows in
          inr ((name, hdr :: rows') :: rest)
      end
  end.

(** Lines 152-168, the body of the [try]. *)
Definition audit_append (report_path : Path) (timestamp : string)
    (records : list AuditRecord) (w : World) : Exc World :=
  try! book := load_workbook report_path w in
  let sheet_name := "audit_" +:+ timestamp in
  let book := create_sheet sheet_name book in
  let book := foldl (λ b r, sheet_append sheet_name (map plain r) b)
                    book (audit_rows records) in
  try! book := highlight_main book in
  write_workbook report_path book w.

(** Lines 55-172.  The result is the final [df] and the run state, whose
    counters and error log are what the function returns. *)
Definition sync_and_verify (folder1 folder2 report_path : Path)
    (force_recopy : bool) (w : World) : Exc (DataFrame * RunState) :=
  let '(t, w0) := now w in
  let timestamp := strftime "%Y-%m-%d_%H-%M-%S" t in
  try! w1 := backup_excel report_path w0 in
  try! df := load_inventory folder2 report_path w1 in
  let '(df', st) := reconcile folder1 force_recopy timestamp df w1 in
  try! w2 := write_workbook report_path (to_excel df') (world st) in
  let st := set_world w2 st in
  inr (df',
       match audit_append report_path timestamp (audit_records st) w2 with
       | inr w3 => set_world w3 st
       | inl e => log_error ("Failed to append audit sheet: " +:+ e) st
       end).

(** [return copied_files, verified_files, mismatched_files, missing_files, ...] *)
Definition counters (st : RunState) : nat * nat * nat * nat :=
  (copied_files st, verified_files st, mismatched_files st, missing_files st).

End Report.

(** ** Observations on the event list *)

Definition checksum_calls (l : list Event) : nat :=
  length (List.filter (λ e, match e with ChecksumCall _ => true | _ => false end) l).

Definition copy_calls (l : list Event) : nat :=
  length (List.filter (λ e, match e with CopyCall _ _ => true | _ => false end) l).

Definition size_calls (l : list Event) : nat :=
  length (List.filter (λ e, match e with SizeCall _ => true | _ => false end) l).

(** The arguments of the successive calls of [progress_callback]. *)
Definition progress_calls (l : list Event) : list (nat * nat) :=
  omap (λ e, match e with ProgressCb c t => Some (c, t) | _ => None end) l.

(** The calls of the two callbacks, in the order they were made. *)
Definition callbacks (l : list Event) : list Event :=
  List.filter (λ e, match e with StatusCb _ | ProgressCb _ _ => true | _ => false end) l.


(** The paths that a run writes or deletes besides the files of the
    inventory: the report, a backup made at some time, an existing backup
    that pruning may delete. *)
Definition artifact (report_path p : Path) : Prop :=
  p = report_path
  ∨ (∃ timestamp, p = backup_path report_path timestamp)
  ∨ (p ≠ [] ∧ dirname p = dirname report_path
     ∧ is_backup_name report_path (basename p) = true).

(** The primary table of the workbook stored at [p]. *)
Definition primary_table (w : World) (p : Path) : option Sheet :=
  match files w !! p with
  | Some {| content := Xlsx ((_, sh) :: _) |} => Some sh
  | _ => None
  end.

(** The row carries the problem marker. *)
Definition marked (r : list Cell) : bool :=
  existsb (λ c, bool_decide (fill c = Some red_fill)) r.

(** The outcome of lines 119-135 for a pair of files, as a value. *)
Inductive Verdict := NotChecked | SizeDiffers | HashDiffers | Same.

Definition verdict `{RT : Runtime} (w : World) (src dst : Path) : Verdict :=
  if file_exists w dst then
    if bool_decide (get_file_size w src ≠ get_file_size w dst) then SizeDiffers
    else if bool_decide (compute_checksum w src ≠ compute_checksum w dst)
         then HashDiffers else Same
  else NotChecked.

(** ** A concrete runtime and small worlds, used to run the program *)

Module Demo.

(** A stand-in for hashlib (the digest is the data itself) and for the
    clock formats (the reading in decimal). *)
Definition runtime : Runtime :=
  {| Hasher := list byte;
     sha_new := [];
     sha_update h chunk := h ++ chunk;
     sha_hexdigest h := String.string_of_list_byte h;
     strftime _ t := pretty t;
     time_str t := pretty t;
     xlsx_bytes _ := [] |}.

Definition file (bs : list byte) (t : nat) : Node :=
  {| content := Raw bs; mtime := t; read_error := None |}.

Definition unreadable (bs : list byte) (t : nat) (msg : string) : Node :=
  {| content := Raw bs; mtime := t; read_error := Some msg |}.

Definition disk (l : list (Path * Node)) : World :=
  {| files := list_to_map l; write_denied := ∅; remove_denied := ∅;
     clock := 100; stdout := [] |}.

Definition record (rel : Path) (root : Path) (d : option string) : FileRecord :=
  {| relative_path := rel; source_path := root ++ rel; date_copied := d;
     exists_in_folder1 := false; exists_in_folder2 := true |}.

Definition internal : Path := ["int"].
Definition external : Path := ["ext"].

(** One record whose file has been deleted from the external tree. *)
Definition gone : FileRecord :=
  record ["gone.txt"] external (Some "2024-05-01 10:00:00").
Definition world_gone : World :=
  disk [(["int"; "gone.txt"], file [x01; x02] 5)].

(** A copied record whose internal copy has vanished. *)
Definition lost : FileRecord :=
  record ["lost.txt"] external (Some "2024-05-01 10:00:00").
Definition world_lost : World :=
  disk [(["ext"; "lost.txt"], file [x01; x02] 5)].


Definition deny_remove (p : Path) (msg : string) (w : World) : World :=
  {| files := files w; write_denied := write_denied w;
     remove_denied := <[p := msg]> (remove_denied w);
     clock := clock w; stdout := stdout w |}.



(** A copied record whose internal copy has been truncated. *)
Definition short : FileRecord :=
  record ["b.txt"] external (Some "2024-05-01 10:00:00").

(** A copied record whose two files cannot be read any more. *)
Definition dead : FileRecord :=
  record ["c.txt"] external (Some "2024-05-01 10:00:00").
Definition world_dead : World :=
  disk [(["ext"; "c.txt"], unreadable [x01; x02] 5 "[Errno 5] Input/output error");
        (["int"; "c.txt"], unreadable [x07; x08] 6 "[Errno 5] Input/output error")].

(** The three-record scenario: (a) in both trees and copied earlier,
    (b) only in the external tree, (c) deleted from the external tree. *)
Definition rec_a : FileRecord :=
  record ["a.txt"] external (Some "2024-05-01 10:00:00").
Definition rec_b : FileRecord := record ["b.txt"] external None.
Definition rec_c : FileRecord :=
  record ["c.txt"] external (Some "2024-05-01 10:00:00").
Definition world_three : World :=
  disk [(["ext"; "a.txt"], file [x01; x02] 5);
        (["int"; "a.txt"], file [x01; x02] 5);
        (["ext"; "b.txt"], file [x03] 7);
        (["int"; "c.txt"], file [x04] 5)].

(** The report of an earlier run over the record [short], and seven
    backups of it, the oldest of which may be held open by another
    program. *)
Definition report_path : Path := ["work"; "missing_files_report.xlsx"].
Definition report_node : Node :=
  {| content := Xlsx (to_excel [short]); mtime := 50; read_error := None |}.
Definition old_backup (i : nat) : Path :=
  ["work"; "missing_files_report_backup_2024-05-0" +:+ pretty i +:+ "_09-00-00.xlsx"].
Definition world_audit : World :=
  disk [(["ext"; "b.txt"], file [x01; x02; x03] 5);
        (["int"; "b.txt"], file [x01; x02] 6);
        (report_path, report_node)].
Definition world_backups : World :=
  disk ((report_path, report_node)
        :: map (λ i, (old_backup i, file [x00] i)) (seq 1 7)).
(** The world after the backup step of a run over [world_backups]. *)
Definition rotated : World :=
  result_or world_backups
    (backup_excel (RT := runtime) report_path world_backups).

(** Two files to mirror, and no report yet. *)
Definition world_pair : World :=
  disk [(["ext"; "a.txt"], file [x01; x02] 5);
        (["ext"; "b.txt"], file [x03] 7)].

(** A run over the external tree, with the report in [work]; an empty
    result stands for a run that raised. *)
Definition run_once (folder1 : Path) (w : World) : DataFrame * RunState :=
  result_or ([], init_state w)
    (sync_and_verify (RT := runtime) folder1 external report_path false w).

(** The internal tree kept inside the external one: [ext/box] mirrors
    [ext], and holds an older copy of [docs/x]. *)
Definition nested : Path := ["ext"; "box"].
Definition world_nested : World :=
  disk [(["ext"; "box"; "docs"; "x"], file [x01; x02] 1);
        (["ext"; "docs"; "x"], file [x03] 2)].

Definition world_backups_locked : World :=
  deny_remove (old_backup 1) "[WinError 32] The file is in use" world_backups.

End Demo.

(** * Properties *)

Lemma succeeds_result {A} (d : A) (m : Exc A) :
  succeeds m = true → m = inr (result_or d m).
Proof. by destruct m. Qed.

Lemma succeeds_pair {A B} (d : A * B) (m : Exc (A * B)) :
  succeeds m = true → m = inr ((result_or d m).1, (result_or d m).2).
Proof. by destruct m as [|[]]. Qed.


Section Engine.
Context `{RT : Runtime}.
Variable folder1 : Path.
Variable force_recopy : bool.

Lemma status_error_neq (e s : string) :
  String.get 0 s ≠ Some "E"%char → "Error copying: " +:+ e ≠ s.
Proof. intros H <-. by apply H. Qed.

(** When the source file is there, the first test (lines 98-103) leaves
    the status, the counters and the world alone. *)
Lemma flag_phase_present r st :
  file_exists (world st) (source_path r) = true →
  let it := flag_phase force_recopy (probe folder1 r st) in
  ex2 it = true ∧ status it = "" ∧ run it = run (probe folder1 r st)
  ∧ relative_path (row it) = relative_path r
  ∧ source_path (row it) = source_path r
  ∧ date_copied (row it) =
      (if negb (file_exists (world st) (dest_path folder1 r)) && force_recopy
       then None else date_copied r).
Proof.
  intros H. unfold flag_phase, probe. simpl. rewrite H. simpl.
  destruct (negb _ && force_recopy); simpl; by repeat split.
Qed.

(** C9. The status "Missing in Folder 1" is the final status of a record
    exactly when its file is absent from the external tree; in that case
    it replaces "Missing in Folder 2", set by the first test, and the
    missing counter is incremented a second time.  A record present in
    the external tree and absent from the internal one, with a copy date
    and without forced re-copy, ends as "Already Copied" and changes no
    counter. *)
Theorem missing_in_folder1_iff_absent_external (r : FileRecord) (st : RunState) :
  let it0 := flag_phase force_recopy (probe folder1 r st) in
  let it := iteration folder1 force_recopy r st in
  (status it = "Missing in Folder 1" ↔
     file_exists (world st) (source_path r) = false)
  ∧ (file_exists (world st) (source_path r) = false →
       status it0 = "Missing in Folder 2"
       ∧ missing_files (run it0) = missing_files st + 1
       ∧ status it = "Missing in Folder 1"
       ∧ missing_files (run it) = missing_files st + 2
       ∧ copied_files (run it) = copied_files st
       ∧ verified_files (run it) = verified_files st
       ∧ mismatched_files (run it) = mismatched_files st)
  ∧ (file_exists (world st) (source_path r) = true →
     file_exists (world st) (dest_path folder1 r) = false →
     is_Some (date_copied r) → force_recopy = false →
       status it = "Already Copied" ∧ counters (run it) = counters st).
Proof.
  intros it0 it. split; [|split].
  - subst it. unfold iteration, decide_phase.
    destruct (file_exists (world st) (source_path r)) eqn:E.
    + split; [|done]. intros Hs. exfalso. revert Hs.
      destruct (flag_phase_present r st E) as (-> & Hst & _).
      unfold verify_phase, copy_phase.
      repeat (first [ case_match | case_bool_decide ]); simpl;
        try discriminate; try (rewrite Hst; discriminate);
        try (intros Hs; by apply status_error_neq in Hs).
    + split; [done|]. intros _.
      unfold flag_phase, probe. simpl. rewrite E. done.
  - intros E. subst it0 it. unfold iteration, decide_phase, flag_phase, probe.
    simpl. rewrite E. simpl. repeat split; try done; lia.
  - intros E1 E2 [d Hd] Hf. subst it. unfold iteration, decide_phase.
    destruct (flag_phase_present r st E1) as (-> & Hst & Hrun & Hrel & Hsrc & Hdate).
    replace (negb (file_exists (world st) (dest_path folder1 r)) && force_recopy)
      with false in Hdate by (rewrite Hf; symmetry; apply andb_false_r).
    unfold verify_phase, copy_phase. rewrite Hdate, Hd. simpl.
    rewrite Hrun. simpl.
    replace (dest_path folder1 (row (flag_phase force_recopy (probe folder1 r st))))
      with (dest_path folder1 r) by (unfold dest_path; by rewrite Hrel).
    rewrite E2. done.
Qed.

End Engine.
Section Counting.

Lemma checksum_calls_app l1 l2 :
  checksum_calls (l1 ++ l2) = checksum_calls l1 + checksum_calls l2.
Proof. unfold checksum_calls. by rewrite List.filter_app, length_app. Qed.

Lemma size_calls_app l1 l2 :
  size_calls (l1 ++ l2) = size_calls l1 + size_calls l2.
Proof. unfold size_calls. by rewrite List.filter_app, length_app. Qed.


Lemma callbacks_app l1 l2 : callbacks (l1 ++ l2) = callbacks l1 ++ callbacks l2.
Proof. apply List.filter_app. Qed.

Lemma progress_calls_app l1 l2 :
  progress_calls (l1 ++ l2) = progress_calls l1 ++ progress_calls l2.
Proof. apply omap_app. Qed.

End Counting.

Section Steps.
Context `{RT : Runtime}.
Variable folder1 : Path.
Variable force_recopy : bool.

Local Abbreviation dest := (dest_path folder1).

(** The iteration on reaching line 105 when the source file is there. *)
Lemma flag_phase_probe_present r st :
  file_exists (world st) (source_path r) = true →
  flag_phase force_recopy (probe folder1 r st) =
  {| row := set_date (if negb (file_exists (world st) (dest r)) && force_recopy
                      then None else date_copied r)
                     (set_exists (file_exists (world st) (dest r)) true r);
     ex1 := file_exists (world st) (dest r);
     ex2 := true;
     status := "";
     run := emit (StatusCb ("Processing: " +:+ show_path (relative_path r))) st |}.
Proof.
  intros H. unfold flag_phase, probe. simpl. rewrite H. simpl.
  by destruct (negb _ && force_recopy).
Qed.

Lemma iteration_present r st :
  file_exists (world st) (source_path r) = true →
  iteration folder1 force_recopy r st =
  verify_phase folder1
    (copy_phase folder1 (flag_phase force_recopy (probe folder1 r st))).
Proof.
  intros H. unfold iteration, decide_phase.
  by rewrite (flag_phase_probe_present r st H).
Qed.

Lemma copy_phase_dated it d :
  date_copied (row it) = Some d →
  copy_phase folder1 it = with_status "Already Copied" (run it) it.
Proof. intros H. unfold copy_phase. by rewrite H. Qed.

Lemma copy_phase_failed it e :
  date_copied (row it) = None →
  shutil_copy2 (source_path (row it)) (dest (row it)) (world (run it)) = inl e →
  copy_phase folder1 it =
  with_status ("Error copying: " +:+ e)
    (log_error (("Error copying: " +:+ e) +:+ " - "
                +:+ show_path (relative_path (row it)))
               (emit (CopyCall (source_path (row it)) (dest (row it))) (run it)))
    it.
Proof. intros H1 H2. unfold copy_phase. rewrite H1. simpl. by rewrite H2. Qed.

Lemma copy_phase_done it w' :
  date_copied (row it) = None →
  shutil_copy2 (source_path (row it)) (dest (row it)) (world (run it)) = inr w' →
  copy_phase folder1 it =
  with_status "Copied"
    (add_copied (set_world (now w').2
       (emit (CopyCall (source_path (row it)) (dest (row it))) (run it))))
    (with_row (set_date (Some (strftime "%Y-%m-%d %H:%M:%S" (clock w'))) (row it)) it).
Proof. intros H1 H2. unfold copy_phase. rewrite H1. simpl. by rewrite H2. Qed.

(** Lines 119-135 in terms of the verdict on the two files. *)
Lemma verify_phase_spec it :
  let v := verdict (world (run it)) (source_path (row it)) (dest (row it)) in
  let it' := verify_phase folder1 it in
  row it' = row it
  ∧ world (run it') = world (run it)
  ∧ copied_files (run it') = copied_files (run it)
  ∧ verified_files (run it') =
      verified_files (run it) + (if v is Same then 1 else 0)
  ∧ mismatched_files (run it') =
      mismatched_files (run it)
      + (match v with SizeDiffers | HashDiffers => 1 | _ => 0 end)
  ∧ missing_files (run it') = missing_files (run it)
  ∧ error_log_entries (run it') = error_log_entries (run it)
  ∧ audit_records (run it') = audit_records (run it)
  ∧ status it' =
      match v with
      | NotChecked => status it
      | SizeDiffers => "Size Mismatch"
      | HashDiffers => "Checksum Mismatch"
      | Same => if bool_decide (status it ≠ "Copied") then "Verified" else status it
      end
  ∧ calls (run it') =
      calls (run it) ++
      match v with
      | NotChecked => []
      | SizeDiffers => [SizeCall (source_path (row it)); SizeCall (dest (row it))]
      | _ => [SizeCall (source_path (row it)); SizeCall (dest (row it));
              ChecksumCall (source_path (row it)); ChecksumCall (dest (row it))]
      end.
Proof.
  unfold verify_phase, verdict.
  destruct (file_exists _ _); simpl.
  - destruct (bool_decide (get_file_size _ _ ≠ _)); simpl.
    + repeat split; try done; try lia. by rewrite <- app_assoc.
    + destruct (bool_decide (compute_checksum _ _ ≠ _)); simpl.
      * repeat split; try done; try lia. by rewrite <- !app_assoc.
      * repeat split; try done; try lia. by rewrite <- !app_assoc.
  - repeat split; try done; try lia. by rewrite app_nil_r.
Qed.

Lemma shutil_copy2_inr src dst w w' :
  shutil_copy2 src dst w = inr w' →
  ∃ n, files w !! src = Some n ∧ src ≠ dst ∧ read_error n = None
       ∧ write_denied w !! dst = None
       ∧ w' = set_files (<[dst := {| content := content n; mtime := mtime n;
                                     read_error := None |}]> (files w)) w.
Proof.
  unfold shutil_copy2. intros H.
  destruct (files w !! src) as [n|]; [|done].
  case_bool_decide; [done|].
  destruct (read_error n) eqn:?; [done|].
  destruct (write_denied w !! dst) eqn:?; [done|].
  exists n. by simplify_eq.
Qed.

(** What every iteration does, whatever the outcome. *)
Lemma iteration_basics r st :
  let it := iteration folder1 force_recopy r st in
  relative_path (row it) = relative_path r
  ∧ source_path (row it) = source_path r
  ∧ audit_records (run it) = audit_records st
  ∧ callbacks (calls (run it)) =
      callbacks (calls st)
      ++ [StatusCb ("Processing: " +:+ show_path (relative_path r))]
  ∧ write_denied (world (run it)) = write_denied (world st)
  ∧ remove_denied (world (run it)) = remove_denied (world st)
  ∧ stdout (world (run it)) = stdout (world st).
Proof.
  intros it. subst it.
  destruct (file_exists (world st) (source_path r)) eqn:E.
  - rewrite (iteration_present r st E).
    pose proof (verify_phase_spec
      (copy_phase folder1 (flag_phase force_recopy (probe folder1 r st)))) as V.
    cbv zeta in V. destruct V as (-> & -> & _ & _ & _ & _ & _ & -> & _ & ->).
    rewrite callbacks_app.
    replace (callbacks (match verdict _ _ _ with NotChecked => [] | _ => _ end))
      with (@nil Event) by (by destruct (verdict _ _ _)).
    rewrite app_nil_r.
    rewrite (flag_phase_probe_present r st E).
    unfold copy_phase. simpl.
    destruct (if negb _ && force_recopy then None else date_copied r); simpl.
    + by rewrite callbacks_app.
    + destruct (shutil_copy2 _ _ _) as [e|w'] eqn:C; simpl.
      * repeat split; try done. by rewrite !callbacks_app, app_nil_r.
      * apply shutil_copy2_inr in C as (n & _ & _ & _ & _ & ->).
        repeat split; try done. by rewrite !callbacks_app, app_nil_r.
  - unfold iteration, decide_phase, flag_phase, probe. simpl. rewrite E. simpl.
    repeat split; try done. by rewrite callbacks_app.
Qed.

End Steps.
Section Loop.
Context `{RT : Runtime}.
Variable folder1 : Path.
Variable force_recopy : bool.
Variable timestamp : string.
Variable total_files : nat.

Local Abbreviation dest := (dest_path folder1).
Local Abbreviation loop := (run_loop folder1 force_recopy timestamp total_files).

Lemma run_loop_cons index r rest st :
  loop index (r :: rest) st =
  let it := iteration folder1 force_recopy r st in
  let res := loop (S index) rest (finish timestamp total_files index it) in
  (row it :: res.1, res.2).
Proof.
  simpl. unfold process_record.
  by destruct (run_loop _ _ _ _ _ _ _).
Qed.


Lemma run_loop_length index df st : length (loop index df st).1 = length df.
Proof.
  revert index st. induction df as [|r rest IH]; intros index st; [done|].
  rewrite run_loop_cons. simpl. by rewrite IH.
Qed.




End Loop.

Section Views.
Context `{RT : Runtime}.

(** The probes and the verdict read the file system at the two paths
    only. *)
Lemma file_exists_ext w w' p :
  files w !! p = files w' !! p → file_exists w p = file_exists w' p.
Proof. unfold file_exists. by intros ->. Qed.

Lemma get_file_size_ext w w' p :
  files w !! p = files w' !! p → get_file_size w p = get_file_size w' p.
Proof. unfold get_file_size. by intros ->. Qed.

Lemma compute_checksum_ext w w' p :
  files w !! p = files w' !! p → compute_checksum w p = compute_checksum w' p.
Proof. unfold compute_checksum, read_file. by intros ->. Qed.

Lemma verdict_ext w w' src dst :
  files w !! src = files w' !! src → files w !! dst = files w' !! dst →
  verdict w src dst = verdict w' src dst.
Proof.
  intros Hs Hd. unfold verdict.
  by rewrite (file_exists_ext w w' dst Hd),
    (get_file_size_ext w w' src Hs), (get_file_size_ext w w' dst Hd),
    (compute_checksum_ext w w' src Hs), (compute_checksum_ext w w' dst Hd).
Qed.

Lemma file_exists_Some w p n : files w !! p = Some n → file_exists w p = true.
Proof. unfold file_exists. intros ->. by apply bool_decide_eq_true. Qed.

Lemma file_exists_None w p : files w !! p = None → file_exists w p = false.
Proof.
  unfold file_exists. intros ->. apply bool_decide_eq_false. by intros [? ?].
Qed.

Lemma file_exists_true w p : file_exists w p = true → is_Some (files w !! p).
Proof. unfold file_exists. by intros ?%bool_decide_eq_true. Qed.

(** Two readable files with the same bytes pass the verification. *)
Lemma verdict_same w src dst ns nd :
  files w !! src = Some ns → files w !! dst = Some nd →
  read_error ns = None → read_error nd = None →
  file_bytes (content ns) = file_bytes (content nd) →
  verdict w src dst = Same.
Proof.
  intros Hs Hd Rs Rd Hb. unfold verdict.
  rewrite (file_exists_Some _ _ _ Hd).
  unfold get_file_size, compute_checksum, read_file.
  rewrite Hs, Hd, Rs, Rd, Hb.
  rewrite bool_decide_eq_false_2 by (by intros ?).
  by rewrite bool_decide_eq_false_2 by (by intros ?).
Qed.

End Views.

Section Claims.
Context `{RT : Runtime}.
Variable folder1 : Path.
Variable force_recopy : bool.

Local Abbreviation dest := (dest_path folder1).

(** The iteration on reaching line 119 when the source file is there:
    the copy step has changed neither the verification counters nor the
    number of checksum and size calls. *)
Lemma before_verify r st :
  file_exists (world st) (source_path r) = true →
  let it1 := copy_phase folder1 (flag_phase force_recopy (probe folder1 r st)) in
  relative_path (row it1) = relative_path r
  ∧ source_path (row it1) = source_path r
  ∧ verified_files (run it1) = verified_files st
  ∧ mismatched_files (run it1) = mismatched_files st
  ∧ missing_files (run it1) = missing_files st
  ∧ checksum_calls (calls (run it1)) = checksum_calls (calls st)
  ∧ size_calls (calls (run it1)) = size_calls (calls st).
Proof.
  intros E it1. subst it1. rewrite (flag_phase_probe_present _ _ r st E).
  unfold copy_phase. simpl.
  destruct (if negb _ && force_recopy then None else date_copied r); simpl.
  - rewrite checksum_calls_app, size_calls_app. simpl.
    repeat split; try done; unfold checksum_calls, size_calls; simpl; lia.
  - destruct (shutil_copy2 _ _ _) as [e|w'] eqn:C; simpl;
      rewrite !checksum_calls_app, !size_calls_app;
      repeat split; try done; unfold checksum_calls, size_calls; simpl; lia.
Qed.



End Claims.
Section Failures.
Context `{RT : Runtime}.
Variable folder1 : Path.
Variable force_recopy : bool.

Local Abbreviation dest := (dest_path folder1).


(** C10. [compute_checksum] is total: when reading fails it returns the
    text "ERROR: " followed by the message.  So when line 119 is reached
    with both files present, of equal size, and reading fails on both
    with the same message, the two values are equal, the verified
    counter grows by one and the status is "Verified", or stays "Copied"
    if the copy step had set it. *)
Theorem checksum_errors_compare_equal (r : FileRecord) (st : RunState) (e : string) :
  let it1 := copy_phase folder1 (flag_phase force_recopy (probe folder1 r st)) in
  let w1 := world (run it1) in
  let it := iteration folder1 force_recopy r st in
  (∀ w p e', read_file w p = inl e' → compute_checksum w p = "ERROR: " +:+ e')
  ∧ (file_exists (world st) (source_path r) = true →
     file_exists w1 (dest r) = true →
     get_file_size w1 (source_path r) = get_file_size w1 (dest r) →
     read_file w1 (source_path r) = inl e →
     read_file w1 (dest r) = inl e →
     compute_checksum w1 (source_path r) = compute_checksum w1 (dest r)
     ∧ verified_files (run it) = verified_files st + 1
     ∧ mismatched_files (run it) = mismatched_files st
     ∧ status it =
         (if bool_decide (status it1 = "Copied") then "Copied" else "Verified")).
Proof.
  intros it1 w1 it. split.
  { intros w p e' H. unfold compute_checksum. by rewrite H. }
  intros E Hd Hsz Rs Rd.
  assert (compute_checksum w1 (source_path r) = compute_checksum w1 (dest r)) as Hh.
  { unfold compute_checksum. by rewrite Rs, Rd. }
  split; [done|].
  subst it. rewrite (iteration_present _ _ r st E).
  destruct (before_verify folder1 force_recopy r st E)
    as (Hrel & Hsrc & Hv & Hm & _).
  fold it1 in Hrel, Hsrc, Hv, Hm |- *.
  pose proof (verify_phase_spec folder1 it1) as V. cbv zeta in V.
  assert (verdict (world (run it1)) (source_path (row it1)) (dest (row it1))
          = Same) as Hver.
  { unfold verdict, dest_path. rewrite Hsrc, Hrel. fold (dest r). fold w1.
    rewrite Hd, Hsz, Hh.
    rewrite bool_decide_eq_false_2 by (by intros ?).
    by rewrite bool_decide_eq_false_2 by (by intros ?). }
  rewrite Hver in V.
  destruct V as (_ & _ & _ & Hv' & Hm' & _ & _ & _ & Hst & _).
  rewrite Hv', Hm', Hst, Hv, Hm.
  repeat split; try lia.
  repeat case_bool_decide; congruence.
Qed.

End Failures.
Section Scenario.
Context `{RT : Runtime}.
Variable folder1 : Path.
Variable force_recopy : bool.

Local Abbreviation dest := (dest_path folder1).

(** A record copied earlier whose two files are readable and equal. *)
Lemma iteration_verified r st ns nd d :
  date_copied r = Some d →
  files (world st) !! source_path r = Some ns →
  files (world st) !! dest r = Some nd →
  read_error ns = None → read_error nd = None →
  file_bytes (content ns) = file_bytes (content nd) →
  let it := iteration folder1 force_recopy r st in
  status it = "Verified" ∧ world (run it) = world st
  ∧ counters (run it) =
      (copied_files st, verified_files st + 1, mismatched_files st,
       missing_files st).
Proof.
  intros Hd Hs Hn Rs Rn Hb it. subst it.
  pose proof (file_exists_Some _ _ _ Hs) as E.
  pose proof (file_exists_Some _ _ _ Hn) as E1.
  rewrite (iteration_present _ _ r st E).
  rewrite (flag_phase_probe_present _ _ r st E). rewrite E1. simpl.
  rewrite (copy_phase_dated folder1 _ d) by (by simpl).
  match goal with |- context [verify_phase folder1 ?i] => set (it0 := i) end.
  pose proof (verify_phase_spec folder1 it0) as V. cbv zeta in V.
  assert (verdict (world (run it0)) (source_path (row it0)) (dest (row it0))
          = Same) as Hver by (by apply (verdict_same _ _ _ ns nd)).
  rewrite Hver in V.
  destruct V as (_ & Hw & Hc & Hv & Hm & Hmi & _ & _ & Hst & _).
  unfold counters. rewrite Hst, Hw, Hc, Hv, Hm, Hmi.
  repeat split; try done.
  subst it0. simpl. by rewrite Nat.add_0_r.
Qed.

(** A record never copied, whose copy succeeds. *)
Lemma iteration_copied r st ns :
  date_copied r = None →
  files (world st) !! source_path r = Some ns →
  files (world st) !! dest r = None →
  read_error ns = None →
  write_denied (world st) !! dest r = None →
  let it := iteration folder1 force_recopy r st in
  status it = "Copied"
  ∧ files (world (run it)) =
      <[dest r := {| content := content ns; mtime := mtime ns;
                     read_error := None |}]> (files (world st))
  ∧ write_denied (world (run it)) = write_denied (world st)
  ∧ counters (run it) =
      (copied_files st + 1, verified_files st + 1, mismatched_files st,
       missing_files st).
Proof.
  intros Hd Hs Hn Rs Hw it. subst it.
  pose proof (file_exists_Some _ _ _ Hs) as E.
  pose proof (file_exists_None _ _ Hn) as E1.
  assert (source_path r ≠ dest r) as Hne by congruence.
  rewrite (iteration_present _ _ r st E).
  rewrite (flag_phase_probe_present _ _ r st E). rewrite E1. simpl.
  assert (shutil_copy2 (source_path r) (dest r) (world st) =
          inr (set_files (<[dest r := {| content := content ns; mtime := mtime ns;
                                         read_error := None |}]> (files (world st)))
                 (world st))) as C.
  { unfold shutil_copy2. rewrite Hs, Rs, Hw.
    by rewrite bool_decide_eq_false_2. }
  erewrite copy_phase_done; [| by simpl; rewrite Hd; destruct force_recopy | exact C].
  match goal with |- context [verify_phase folder1 ?i] => set (it0 := i) end.
  pose proof (verify_phase_spec folder1 it0) as V. cbv zeta in V.
  assert (verdict (world (run it0)) (source_path (row it0)) (dest (row it0))
          = Same) as Hver.
  { eapply (verdict_same _ _ _ ns); simpl;
      [by rewrite lookup_insert_ne | by rewrite lookup_insert_eq | done..]. }
  rewrite Hver in V.
  destruct V as (_ & Hw' & Hc & Hv & Hm & Hmi & _ & _ & Hst & _).
  unfold counters. rewrite Hst, Hw', Hc, Hv, Hm, Hmi.
  repeat split; try done.
  subst it0. simpl. by rewrite Nat.add_0_r.
Qed.

(** A record whose file is absent from the external tree. *)
Lemma iteration_absent r st :
  files (world st) !! source_path r = None →
  let it := iteration folder1 force_recopy r st in
  files (world (run it)) = files (world st)
  ∧ copied_files (run it) = copied_files st
  ∧ verified_files (run it) = verified_files st
  ∧ mismatched_files (run it) = mismatched_files st
  ∧ missing_files (run it) = missing_files st + 2.
Proof.
  intros Hs it. subst it. pose proof (file_exists_None _ _ Hs) as E.
  unfold iteration, decide_phase, flag_phase, probe. simpl. rewrite E. simpl.
  repeat split; try done. lia.
Qed.

End Scenario.
Section ThreeRecords.
Context `{RT : Runtime}.
Variable folder1 : Path.
Variable force_recopy : bool.
Local Abbreviation dest := (dest_path folder1).
Lemma finish_facts (timestamp : string) (total index : nat) (it : Iter) :
  let st := finish timestamp total index it in
  world st = world (run it)
  ∧ copied_files st = copied_files (run it)
  ∧ verified_files st = verified_files (run it)
  ∧ mismatched_files st = mismatched_files (run it)
  ∧ audit_records st =
      audit_records (run it)
      ++ [{| audit_timestamp := timestamp;
             audit_relative_path := relative_path (row it);
             audit_status := status it |}].
Proof. done. Qed.

(** C2 (as the code has it). With an inventory of three records, (a)
    copied earlier, readable and identical in both trees, (b) only in the
    external tree, never copied, whose copy succeeds, (c) absent from the
    external tree and not the destination of (b): the run counts one
    copy, two verifications (the file just copied is verified in the same
    pass) and no mismatch, and the statuses of (a) and (b) are "Verified"
    and "Copied". *)
Theorem three_record_scenario (timestamp : string) (ra rb rc : FileRecord)
    (w : World) (na na' nb : Node) (d : string) :
  date_copied ra = Some d →
  files w !! source_path ra = Some na →
  files w !! dest ra = Some na' →
  read_error na = None → read_error na' = None →
  file_bytes (content na) = file_bytes (content na') →
  date_copied rb = None →
  files w !! source_path rb = Some nb →
  files w !! dest rb = None →
  read_error nb = None →
  write_denied w !! dest rb = None →
  files w !! source_path rc = None →
  source_path rc ≠ dest rb →
  let st := (reconcile folder1 force_recopy timestamp [ra; rb; rc] w).2 in
  copied_files st = 1 ∧ verified_files st = 2 ∧ mismatched_files st = 0
  ∧ ∃ s, map audit_status (audit_records st) = ["Verified"; "Copied"; s].
Proof.
  intros Da Sa Na Ra Ra' Ba Db Sb Nb Rb Wb Sc Hcb st. subst st.
  unfold reconcile.
  do 3 (rewrite run_loop_cons; cbv zeta; cbn [snd]).
  cbn [run_loop snd length].
  remember (init_state w) as sa eqn:Esa.
  assert (world sa = w ∧ copied_files sa = 0 ∧ verified_files sa = 0
          ∧ mismatched_files sa = 0 ∧ audit_records sa = [])
    as (Hw0 & Hc0 & Hv0 & Hm0 & Ha0) by (by subst sa).
  clear Esa. subst w.
  destruct (iteration_verified folder1 force_recopy ra sa na na' d Da Sa Na Ra Ra' Ba)
    as (Hsta & Hwa & Hca).
  unfold counters in Hca. injection Hca as Hca Hva Hma _.
  revert Hca Hva Hma.
  destruct (iteration_basics folder1 force_recopy ra sa) as (_ & _ & Haa & _).
  revert Hsta Hwa Haa.
  generalize (iteration folder1 force_recopy ra sa).
  intros ita Hsta Hwa Haa Hca Hva Hma.
  pose proof (finish_facts timestamp 3 0 ita) as (Fwa & Fca & Fva & Fma & Faa).
  revert Fwa Fca Fva Fma Faa.
  generalize (finish timestamp 3 0 ita). intros sb Fwa Fca Fva Fma Faa.
  destruct (iteration_copied folder1 force_recopy rb sb nb Db)
    as (Hstb & Hfb & _ & Hcb');
    [rewrite ?Fwa, ?Hwa; done..|].
  destruct (iteration_basics folder1 force_recopy rb sb) as (_ & _ & Hab & _).
  revert Hstb Hfb Hcb' Hab.
  generalize (iteration folder1 force_recopy rb sb). intros itb Hstb Hfb Hcb' Hab.
  pose proof (finish_facts timestamp 3 1 itb) as (Fwb & Fcb & Fvb & Fmb & Fab).
  revert Fwb Fcb Fvb Fmb Fab.
  generalize (finish timestamp 3 1 itb). intros sc Fwb Fcb Fvb Fmb Fab.
  destruct (iteration_absent folder1 force_recopy rc sc) as (_ & Hcc & Hvc & Hmc & _).
  { rewrite Fwb, Hfb, Fwa, Hwa. by rewrite lookup_insert_ne. }
  destruct (iteration_basics folder1 force_recopy rc sc) as (_ & _ & Hac & _).
  revert Hcc Hvc Hmc Hac.
  generalize (iteration folder1 force_recopy rc sc). intros itc Hcc Hvc Hmc Hac.
  pose proof (finish_facts timestamp 3 2 itc) as (_ & Fcc & Fvc & Fmc & Fac).
  rewrite Fcc, Fvc, Fmc, Fac, Hcc, Hvc, Hmc, Hac.
  unfold counters in Hcb'. injection Hcb' as Hc1 Hv1 Hm1 _.
  rewrite Fcb, Fvb, Fmb, Fab, Hc1, Hv1, Hm1, Hab.
  rewrite Fca, Fva, Fma, Faa, Hca, Hva, Hma, Haa, Hc0, Hv0, Hm0, Ha0.
  rewrite Hsta, Hstb. repeat split; try done. by eexists.
Qed.

End ThreeRecords.

(** * The properties on concrete runs *)

Section Runs.
Import Demo.
#[local] Existing Instance Demo.runtime.

(** C1. The code at a record whose file has been deleted from the
    external tree: the first test sets "Missing in Folder 2" and counts
    it, the [else] of the second test then sets "Missing in Folder 1" and
    counts it again.  No copy and no verification take place. *)
Theorem absent_external_counted_twice :
  let res := reconcile internal false "2024-06-01_09-00-00" [gone] world_gone in
  map audit_status (audit_records res.2) = ["Missing in Folder 1"]
  ∧ missing_files res.2 = 2
  ∧ error_log_entries res.2 =
      ["[100] Missing in Folder 2 - gone.txt";
       "[101] Missing in Folder 1 - gone.txt"]
  ∧ copy_calls (calls res.2) = 0
  ∧ size_calls (calls res.2) = 0
  ∧ checksum_calls (calls res.2) = 0.
Proof. vm_compute. by repeat split. Qed.

Lemma missing_in_folder1_witness :
  status (iteration internal false gone (init_state world_gone))
    = "Missing in Folder 1"
  ∧ missing_files (run (iteration internal false gone (init_state world_gone))) = 2
  ∧ status (iteration internal false lost (init_state world_lost))
    = "Already Copied".
Proof.
  destruct (missing_in_folder1_iff_absent_external internal false gone
              (init_state world_gone)) as (_ & H & _).
  destruct H as (_ & _ & H1 & H2 & _); [by vm_compute|].
  destruct (missing_in_folder1_iff_absent_external internal false lost
              (init_state world_lost)) as (_ & _ & H).
  destruct H as (H3 & _); [by vm_compute| by vm_compute | by eexists | done |].
  exact (conj H1 (conj H2 H3)).
Defined.




Lemma checksum_errors_witness :
  let it := iteration internal false dead (init_state world_dead) in
  compute_checksum world_dead ["ext"; "c.txt"] = "ERROR: [Errno 5] Input/output error"
  ∧ status it = "Verified"
  ∧ verified_files (run it) = 1.
Proof.
  destruct (checksum_errors_compare_equal internal false dead
              (init_state world_dead) "[Errno 5] Input/output error")
    as [H0 H].
  destruct H as (_ & H1 & _ & H2);
    [by vm_compute | by vm_compute | by vm_compute | by vm_compute
     | by vm_compute |].
  split; [apply H0; by vm_compute|].
  exact (conj H2 H1).
Defined.

Lemma three_record_witness :
  let st := (reconcile internal false "2024-06-01_09-00-00"
               [rec_a; rec_b; rec_c] world_three).2 in
  copied_files st = 1 ∧ verified_files st = 2 ∧ mismatched_files st = 0.
Proof.
  destruct (three_record_scenario internal false "2024-06-01_09-00-00"
              rec_a rec_b rec_c world_three
              (file [x01; x02] 5) (file [x01; x02] 5) (file [x03] 7)
              "2024-05-01 10:00:00")
    as (H1 & H2 & H3 & _);
    [ reflexivity | by vm_compute | by vm_compute | reflexivity | reflexivity
    | reflexivity | reflexivity | by vm_compute | by vm_compute | reflexivity
    | by vm_compute | by vm_compute | by vm_compute | ].
  exact (conj H1 (conj H2 H3)).
Defined.

(** C2, as stated, on the scenario: the file copied in this run is also
    verified in it, and the deleted file is counted twice, under the
    status "Missing in Folder 1". *)
Lemma three_record_counts_differ :
  let st := (reconcile internal false "2024-06-01_09-00-00"
               [rec_a; rec_b; rec_c] world_three).2 in
  counters st = (1, 2, 0, 2)
  ∧ map audit_status (audit_records st)
    = ["Verified"; "Copied"; "Missing in Folder 1"]
  ∧ counters st ≠ (1, 1, 0, 1).
Proof. vm_compute. by repeat split. Qed.

End Runs.

(** * Backup rotation *)

Section Rotation.
Context `{RT : Runtime}.

Lemma path_split (p : Path) : p ≠ [] → path_join (dirname p) [basename p] = p.
Proof. intros H. unfold path_join, dirname, basename. by rewrite <- app_removelast_last. Qed.

Lemma dirname_join (d : Path) (f : string) : dirname (path_join d [f]) = d.
Proof. apply removelast_last. Qed.

Lemma basename_join (d : Path) (f : string) : basename (path_join d [f]) = f.
Proof. apply last_last. Qed.

(** [sorted(..., reverse=True)] rearranges its argument, newest first. *)
Lemma insert_desc_perm key x l : insert_desc key x l ≡ₚ x :: l.
Proof.
  induction l as [|y l IH]; simpl; [done|].
  destruct (key x <? key y); [|done].
  by rewrite IH, Permutation_swap.
Qed.

Lemma sorted_desc_perm key l : sorted_desc key l ≡ₚ l.
Proof.
  induction l as [|x l IH]; simpl; [done|].
  by rewrite insert_desc_perm, IH.
Qed.

Lemma insert_desc_sorted key x l :
  StronglySorted (λ a b, key b ≤ key a) l →
  StronglySorted (λ a b, key b ≤ key a) (insert_desc key x l).
Proof.
  induction 1 as [|y l Hs IH Hy]; simpl.
  - repeat constructor.
  - destruct (key x <? key y) eqn:E.
    + apply Nat.ltb_lt in E. constructor; [done|].
      rewrite insert_desc_perm. constructor; [lia|done].
    + apply Nat.ltb_ge in E. constructor; [by constructor|].
      constructor; [done|]. eapply Forall_impl; [exact Hy|]. simpl. lia.
Qed.

Lemma sorted_desc_sorted key l :
  StronglySorted (λ a b, key b ≤ key a) (sorted_desc key l).
Proof.
  induction l as [|x l IH]; simpl; [constructor|].
  by apply insert_desc_sorted.
Qed.

(** The backups of a report are the files of its folder whose name
    matches the pattern. *)
Lemma elem_of_backups rp w p :
  p ∈ backups rp w ↔
  is_Some (files w !! p) ∧ p ≠ [] ∧ dirname p = dirname rp
  ∧ is_backup_name rp (basename p) = true.
Proof.
  unfold backups. rewrite sorted_desc_perm.
  rewrite list_elem_of_fmap. split.
  - intros (f & -> & Hf).
    apply list_elem_of_filter in Hf as [Hb Hf].
    apply Is_true_true in Hb.
    unfold listdir in Hf. apply list_elem_of_omap in Hf as (q & Hq & Hqf).
    case_bool_decide as Hd; [|done]. destruct Hd as [Hne Hdir].
    injection Hqf as <-. rewrite <- Hdir, (path_split q Hne).
    apply list_elem_of_fmap in Hq as ([q' n] & -> & Hq).
    apply elem_of_map_to_list in Hq. simpl in *.
    repeat split; [by eexists|done|done].
  - intros ([n Hn] & Hne & Hdir & Hb).
    exists (basename p). split; [by rewrite <- Hdir, path_split|].
    apply list_elem_of_filter. split; [by apply Is_true_true|].
    unfold listdir. apply list_elem_of_omap. exists p. split.
    + apply list_elem_of_fmap. exists (p, n). split; [done|].
      by apply elem_of_map_to_list.
    + by rewrite bool_decide_eq_true_2.
Qed.

Lemma NoDup_backups rp w : NoDup (backups rp w).
Proof.
  unfold backups. rewrite sorted_desc_perm.
  apply NoDup_fmap_2; [intros f g H; by simplify_list_eq|].
  apply NoDup_filter.
  unfold listdir.
  pose proof (NoDup_fst_map_to_list (files w)) as Hk.
  induction Hk as [|q l Hq Hl IH]; simpl; [constructor|].
  case_bool_decide as Hd; [|done]. constructor; [|done].
  intros Hin. apply list_elem_of_omap in Hin as (q' & Hq' & E).
  case_bool_decide as Hd'; [|done]. injection E as E.
  destruct Hd as [? Hd], Hd' as [? Hd'].
  apply Hq. replace q with q'; [done|].
  by rewrite <- (path_split q'), <- (path_split q), E, Hd, Hd'.
Qed.

(** The effect of the [for old_backup] loop on the file system. *)
Lemma remove_logged_files w o p :
  files (remove_logged w o) !! p =
  if bool_decide (p = o ∧ remove_denied w !! o = None) then None
  else files w !! p.
Proof.
  unfold remove_logged, os_remove.
  destruct (files w !! o) as [n|] eqn:Ho.
  - destruct (remove_denied w !! o) as [e|] eqn:Hr; simpl.
    + rewrite bool_decide_eq_false_2; [done|]. by intros [_ ?].
    + case_bool_decide as H.
      * destruct H as [-> _]. apply lookup_delete_eq.
      * apply lookup_delete_ne. intros <-. by apply H.
  - simpl. case_bool_decide as H; [|done]. destruct H as [-> _]. done.
Qed.

Lemma remove_logged_frame w o :
  remove_denied (remove_logged w o) = remove_denied w
  ∧ write_denied (remove_logged w o) = write_denied w
  ∧ clock (remove_logged w o) = clock w.
Proof.
  unfold remove_logged, os_remove.
  destruct (files w !! o); [destruct (remove_denied w !! o)|]; done.
Qed.

Lemma cleanup_loop_files l w p :
  files (foldl remove_logged w l) !! p =
  if bool_decide (p ∈ l ∧ remove_denied w !! p = None) then None
  else files w !! p.
Proof.
  revert w. induction l as [|o l IH]; intros w.
  - rewrite bool_decide_eq_false_2; [done|]. intros [H _]. by apply not_elem_of_nil in H.
  - cbn [foldl]. rewrite IH. destruct (remove_logged_frame w o) as (-> & _).
    rewrite remove_logged_files.
    destruct (decide (p = o)) as [->|Hne].
    + destruct (remove_denied w !! o) as [e|] eqn:Ho.
      * rewrite !bool_decide_eq_false_2; [done|by intros [_ ?]..].
      * rewrite (bool_decide_eq_true_2 (o = o ∧ _)) by done.
        rewrite (bool_decide_eq_true_2 (o ∈ o :: l ∧ _)) by (split; [left|done]).
        by case_bool_decide.
    + rewrite (bool_decide_eq_false_2 (p = o ∧ _)) by (by intros [? _]).
      erewrite bool_decide_ext; [done|]. rewrite elem_of_cons.
      split; intros [H ?]; (split; [|done]); [by right|by destruct H].
Qed.

Lemma cleanup_loop_frame l w :
  remove_denied (foldl remove_logged w l) = remove_denied w
  ∧ write_denied (foldl remove_logged w l) = write_denied w
  ∧ clock (foldl remove_logged w l) = clock w.
Proof.
  revert w. induction l as [|o l IH]; intros w; simpl; [done|].
  destruct (IH (remove_logged w o)) as (-> & -> & ->).
  apply remove_logged_frame.
Qed.

(** Each deletion that fails leaves one line on the standard output. *)
Lemma cleanup_loop_stdout l w :
  NoDup l → (∀ o, o ∈ l → is_Some (files w !! o)) →
  stdout (foldl remove_logged w l) =
  stdout w ++
  omap (λ o, (λ e, "Failed to delete old backup: " +:+ show_path o
                   +:+ " - " +:+ e) <$> remove_denied w !! o) l.
Proof.
  revert w. induction l as [|o l IH]; intros w Hnd Hex; simpl.
  - by rewrite app_nil_r.
  - apply NoDup_cons in Hnd as [Ho Hnd].
    destruct (remove_logged_frame w o) as (Hr & _).
    rewrite IH; [|done|].
    + rewrite Hr. unfold remove_logged at 1, os_remove.
      destruct (Hex o) as [n ->]; [set_solver|].
      destruct (remove_denied w !! o) as [e|]; simpl; [|done].
      by rewrite <- app_assoc.
    + intros o' Ho'. rewrite remove_logged_files.
      rewrite bool_decide_eq_false_2; [apply Hex; set_solver|].
      intros [-> _]. done.
Qed.

End Rotation.

Section RotationClaim.
Context `{RT : Runtime}.

(** C7 (as the code has it). When the report exists and copying it
    succeeds, [backup_excel] first writes, next to the untouched report, a
    file with the content and the modification time of the report, named
    with the timestamp read at that moment, and then prunes.  After
    pruning, the backups that remain are the seven most recent by
    modification time together with the older ones whose deletion failed:
    at most seven remain when no deletion fails.  Each failed deletion
    prints one line and the function still returns. *)
Theorem backup_rotation (rp : Path) (w w' : World) (n : Node) :
  files w !! rp = Some n →
  backup_excel rp w = inr w' →
  let bp := backup_path rp (strftime "%Y-%m-%d_%H-%M-%S" (clock w)) in
  let copy := {| content := content n; mtime := mtime n; read_error := None |} in
  let wc := set_files (<[bp := copy]> (files w)) (now w).2 in
  let kept := take 7 (backups rp wc) in
  let old := drop 7 (backups rp wc) in
  w' = cleanup_old_backups rp 7 wc
  ∧ files wc !! bp = Some copy
  ∧ files wc !! rp = Some n
  ∧ (∀ p, p ∈ backups rp w' ↔
          p ∈ kept ∨ (p ∈ old ∧ is_Some (remove_denied w !! p)))
  ∧ (∀ k o, k ∈ kept → o ∈ old → getmtime wc o ≤ getmtime wc k)
  ∧ ((∀ o, o ∈ old → remove_denied w !! o = None) →
     length (backups rp w') ≤ 7)
  ∧ stdout w' =
      stdout w ++
      omap (λ o, (λ e, "Failed to delete old backup: " +:+ show_path o
                       +:+ " - " +:+ e) <$> remove_denied w !! o) old.
Proof.
  intros Hn Hb bp copy wc kept old.
  unfold backup_excel in Hb. rewrite (file_exists_Some _ _ _ Hn) in Hb.
  cbn [now] in Hb.
  destruct (shutil_copy2 _ _ _) as [e|w2] eqn:C; [done|].
  apply shutil_copy2_inr in C as (n' & Hn' & Hne & _ & _ & ->).
  cbn [files] in Hn'. rewrite Hn in Hn'. injection Hn' as <-.
  cbn [exc_bind] in Hb. injection Hb as <-. fold bp copy. fold wc.
  assert (backups rp wc = kept ++ old) as Hsplit
    by (symmetry; apply take_drop).
  pose proof (NoDup_backups rp wc) as Hnd. rewrite Hsplit in Hnd.
  apply NoDup_app in Hnd as (Hndk & Hdisj & Hndo).
  assert (∀ p, p ∈ backups rp (cleanup_old_backups rp 7 wc) ↔
               p ∈ kept ∨ (p ∈ old ∧ is_Some (remove_denied w !! p))) as Hsurv.
  { intros p. rewrite elem_of_backups. unfold cleanup_old_backups.
    fold old. rewrite cleanup_loop_files.
    change (remove_denied wc) with (remove_denied w).
    split.
    - intros (Hs & Hq). case_bool_decide as Hd; [by destruct Hs|].
      assert (p ∈ backups rp wc) as Hin by (by apply elem_of_backups).
      rewrite Hsplit in Hin. apply elem_of_app in Hin as [?|Ho]; [by left|].
      right. split; [done|].
      destruct (remove_denied w !! p) eqn:E; [by eexists|].
      by destruct Hd.
    - intros [Hk|[Ho Hr]].
      + assert (p ∈ backups rp wc) as Hin
          by (rewrite Hsplit; apply elem_of_app; by left).
        apply elem_of_backups in Hin as (Hs & Hq).
        rewrite bool_decide_eq_false_2; [done|].
        intros [Ho _]. by apply (Hdisj p).
      + assert (p ∈ backups rp wc) as Hin
          by (rewrite Hsplit; apply elem_of_app; by right).
        apply elem_of_backups in Hin as (Hs & Hq).
        rewrite bool_decide_eq_false_2; [done|].
        intros [_ E]. rewrite E in Hr. by destruct Hr. }
  split; [done|]. split; [by apply lookup_insert_eq|].
  split; [by cbn; rewrite lookup_insert_ne|].
  split; [done|]. split; [|split].
  - intros k o Hk Ho.
    pose proof (sorted_desc_sorted (getmtime wc)
      ((λ f, path_join (dirname rp) [f])
         <$> filter (λ f, is_backup_name rp f) (listdir wc (dirname rp)))) as Hs.
    fold (backups rp wc) in Hs. rewrite Hsplit in Hs.
    by apply (StronglySorted_app_1_elem_of _ _ _ k o Hs).
  - intros Hfree.
    transitivity (length kept); [|unfold kept; rewrite length_take; lia].
    apply submseteq_length, NoDup_submseteq; [apply NoDup_backups|].
    intros p Hp. apply Hsurv in Hp as [?|[Ho Hr]]; [done|].
    rewrite (Hfree p Ho) in Hr. by destruct Hr.
  - unfold cleanup_old_backups. fold old.
    rewrite cleanup_loop_stdout; [done|done|].
    intros o Ho.
    assert (o ∈ backups rp wc) as Hin
      by (rewrite Hsplit; apply elem_of_app; by right).
    by apply elem_of_backups in Hin as (Hs & _).
Qed.

End RotationClaim.

Section RotationRuns.
Import Demo.
#[local] Existing Instance Demo.runtime.

Lemma backup_rotation_witness :
  length (backups report_path rotated) ≤ 7 ∧ stdout rotated = [].
Proof.
  destruct (backup_rotation report_path world_backups rotated report_node)
    as (_ & _ & _ & _ & _ & Hlen & Hout);
    [vm_compute; reflexivity
    |apply succeeds_result; vm_compute; reflexivity |].
  split; [apply Hlen; intros o _; apply lookup_empty|].
  rewrite Hout. vm_compute. reflexivity.
Defined.

(** C7, as stated, when the oldest backup cannot be deleted: eight
    backups remain. *)
Lemma backup_rotation_exceeds_keep_last :
  match backup_excel report_path world_backups_locked with
  | inr w' =>
      length (backups report_path w') = 8
      ∧ ¬ length (backups report_path w') ≤ 7
      ∧ stdout w' =
          ["Failed to delete old backup: work/missing_files_report_backup_2024-05-01_09-00-00.xlsx - [WinError 32] The file is in use"]
  | inl _ => False
  end.
Proof. vm_compute. split; [done|]. split; [lia|done]. Qed.

(** C8. The code at a report with one record whose internal copy is
    shorter than the source: the run gives it the status "Size Mismatch",
    and the primary table that is saved has the five columns, none of them
    a status, and no marked row.  The cell that lines 163-164 test is the
    third from the end, "Date Copied to Folder 1". *)
Theorem problem_row_not_marked :
  match sync_and_verify internal external report_path false world_audit with
  | inr (df, st) =>
      map audit_status (audit_records st) = ["Size Mismatch"]
      ∧ mismatched_files st = 1
      ∧ ∃ hdr r,
          primary_table (world st) report_path = Some [hdr; r]
          ∧ map value hdr = map VText columns
          ∧ map value r = record_cells {| relative_path := ["b.txt"];
                                          source_path := ["ext"; "b.txt"];
                                          date_copied := Some "2024-05-01 10:00:00";
                                          exists_in_folder1 := true;
                                          exists_in_folder2 := true |}
          ∧ py_index r (Z.of_nat (max_column [hdr; r]) - 3)
            = Some (plain (VText "2024-05-01 10:00:00"))
          ∧ marked r = false
  | inl _ => False
  end.
Proof. vm_compute. repeat split. eexists _, _. by repeat split. Qed.

End RotationRuns.

(** * Running the loop a second time *)

Section Again.
Context `{RT : Runtime}.
Variable folder1 : Path.
Variable force_recopy : bool.

Local Abbreviation dest := (dest_path folder1).
Local Abbreviation step := (iteration folder1 force_recopy).

(** The date that the copy step finds (lines 102-106). *)
Local Abbreviation date_at r st :=
  (if negb (file_exists (world st) (dest r)) && force_recopy
   then None else date_copied r).

Local Abbreviation same_inc v := (match v with Same => 1 | _ => 0 end).
Local Abbreviation diff_inc v :=
  (match v with SizeDiffers | HashDiffers => 1 | _ => 0 end).

(** No copy is attempted. *)
Lemma iteration_dated r st ns d :
  files (world st) !! source_path r = Some ns →
  date_at r st = Some d →
  let it := step r st in
  let v := verdict (world st) (source_path r) (dest r) in
  relative_path (row it) = relative_path r
  ∧ source_path (row it) = source_path r
  ∧ date_copied (row it) = Some d
  ∧ world (run it) = world st
  ∧ copied_files (run it) = copied_files st
  ∧ verified_files (run it) = verified_files st + same_inc v
  ∧ mismatched_files (run it) = mismatched_files st + diff_inc v
  ∧ missing_files (run it) = missing_files st.
Proof.
  intros Hs Hd it v. subst it v.
  pose proof (file_exists_Some _ _ _ Hs) as E.
  rewrite (iteration_present _ _ r st E).
  rewrite (flag_phase_probe_present _ _ r st E), Hd.
  rewrite (copy_phase_dated folder1 _ d) by done.
  match goal with |- context [verify_phase folder1 ?i] => set (it0 := i) end.
  pose proof (verify_phase_spec folder1 it0) as V. cbv zeta in V.
  destruct V as (Hr & Hw & Hc & Hv & Hm & Hmi & _).
  rewrite Hr, Hw, Hc, Hv, Hm, Hmi. by subst it0.
Qed.

(** The copy is attempted and fails. *)
Lemma iteration_failed r st ns e :
  files (world st) !! source_path r = Some ns →
  date_at r st = None →
  shutil_copy2 (source_path r) (dest r) (world st) = inl e →
  let it := step r st in
  let v := verdict (world st) (source_path r) (dest r) in
  relative_path (row it) = relative_path r
  ∧ source_path (row it) = source_path r
  ∧ date_copied (row it) = None
  ∧ files (world (run it)) = files (world st)
  ∧ copied_files (run it) = copied_files st
  ∧ verified_files (run it) = verified_files st + same_inc v
  ∧ mismatched_files (run it) = mismatched_files st + diff_inc v
  ∧ missing_files (run it) = missing_files st.
Proof.
  intros Hs Hd C it v. subst it v.
  pose proof (file_exists_Some _ _ _ Hs) as E.
  rewrite (iteration_present _ _ r st E).
  rewrite (flag_phase_probe_present _ _ r st E), Hd.
  rewrite (copy_phase_failed folder1 _ e) by done.
  match goal with |- context [verify_phase folder1 ?i] => set (it0 := i) end.
  pose proof (verify_phase_spec folder1 it0) as V. cbv zeta in V.
  destruct V as (Hr & Hw & Hc & Hv & Hm & Hmi & _).
  rewrite Hr, Hw, Hc, Hv, Hm, Hmi. subst it0. cbn.
  by rewrite (verdict_ext (now (world st)).2 (world st)).
Qed.

(** The copy is attempted and succeeds: the new file passes the
    verification of the same pass. *)
Lemma iteration_copy_done r st ns w' :
  files (world st) !! source_path r = Some ns →
  date_at r st = None →
  shutil_copy2 (source_path r) (dest r) (world st) = inr w' →
  let it := step r st in
  relative_path (row it) = relative_path r
  ∧ source_path (row it) = source_path r
  ∧ is_Some (date_copied (row it))
  ∧ source_path r ≠ dest r
  ∧ read_error ns = None
  ∧ files (world (run it)) =
      <[dest r := {| content := content ns; mtime := mtime ns;
                     read_error := None |}]> (files (world st))
  ∧ copied_files (run it) = copied_files st + 1
  ∧ verified_files (run it) = verified_files st + 1
  ∧ mismatched_files (run it) = mismatched_files st
  ∧ missing_files (run it) = missing_files st.
Proof.
  intros Hs Hd C it. subst it.
  pose proof (file_exists_Some _ _ _ Hs) as E.
  rewrite (iteration_present _ _ r st E).
  rewrite (flag_phase_probe_present _ _ r st E), Hd.
  erewrite copy_phase_done; [|done|exact C].
  apply shutil_copy2_inr in C as (n' & Hn' & Hne & Hre & _ & ->).
  rewrite Hs in Hn'. injection Hn' as <-.
  match goal with |- context [verify_phase folder1 ?i] => set (it0 := i) end.
  pose proof (verify_phase_spec folder1 it0) as V. cbv zeta in V.
  assert (verdict (world (run it0)) (source_path (row it0)) (dest (row it0))
          = Same) as Hver.
  { eapply (verdict_same _ _ _ ns); cbn;
      [by rewrite lookup_insert_ne | by rewrite lookup_insert_eq | done..]. }
  rewrite Hver in V.
  destruct V as (Hr & Hw & Hc & Hv & Hm & Hmi & _).
  rewrite Hr, Hw, Hc, Hv, Hm, Hmi. subst it0. cbn.
  repeat split; try done; lia.
Qed.

(** A failing copy fails again as long as the source file and the
    permission on the destination are the same. *)
Lemma shutil_copy2_again src dst w w2 e :
  shutil_copy2 src dst w = inl e →
  files w2 !! src = files w !! src →
  write_denied w2 !! dst = write_denied w !! dst →
  shutil_copy2 src dst w2 = inl e.
Proof.
  intros H Hf Hw. unfold shutil_copy2 in *. rewrite Hf, Hw.
  destruct (files w !! src) as [n|]; [|done].
  case_bool_decide; [done|].
  destruct (read_error n); [done|].
  by destruct (write_denied w !! dst).
Qed.

(** Running the iteration again on the row it has produced, in a world
    where the two files of the record are as the first iteration left
    them: nothing is copied, the file system is not changed, and the
    other counters move as they did the first time. *)
Lemma iteration_again r st st2 :
  let it := step r st in
  files (world st2) !! source_path r = files (world (run it)) !! source_path r →
  files (world st2) !! dest r = files (world (run it)) !! dest r →
  write_denied (world st2) !! dest r = write_denied (world st) !! dest r →
  let it2 := step (row it) st2 in
  files (world (run it2)) = files (world st2)
  ∧ copied_files (run it2) = copied_files st2
  ∧ verified_files (run it2) + verified_files st
    = verified_files st2 + verified_files (run it)
  ∧ mismatched_files (run it2) + mismatched_files st
    = mismatched_files st2 + mismatched_files (run it)
  ∧ missing_files (run it2) + missing_files st
    = missing_files st2 + missing_files (run it).
Proof.
  intros it Hs2 Hd2 Hw2 it2.
  destruct (files (world st) !! source_path r) as [ns|] eqn:Hs.
  - destruct (date_at r st) as [d|] eqn:Hd;
      [|destruct (shutil_copy2 (source_path r) (dest r) (world st))
          as [e|w'] eqn:C].
    + (* no copy the first time *)
      destruct (iteration_dated r st ns d Hs Hd)
        as (Hrel & Hsrc & Hdate & Hw & Hc & Hv & Hm & Hmi).
      fold it in Hrel, Hsrc, Hdate, Hw, Hc, Hv, Hm, Hmi.
      assert (dest (row it) = dest r) as Hdest
        by (unfold dest_path; by rewrite Hrel).
      rewrite Hw in Hs2, Hd2.
      assert (date_at (row it) st2 = Some d) as Hd'.
      { rewrite Hdest, Hdate, (file_exists_ext _ (world st) _ Hd2).
        revert Hd.
        by destruct (negb (file_exists (world st) (dest r)) && force_recopy). }
      destruct (iteration_dated (row it) st2 ns d)
        as (_ & _ & _ & Hw' & Hc' & Hv' & Hm' & Hmi'); [congruence|done|].
      fold it2 in Hw', Hc', Hv', Hm', Hmi'.
      rewrite Hsrc, Hdest in Hv', Hm'.
      rewrite (verdict_ext (world st2) (world st)) in Hv', Hm' by done.
      rewrite Hw', Hc', Hv', Hm', Hmi', Hv, Hm, Hmi. repeat split; lia.
    + (* the copy failed the first time *)
      destruct (iteration_failed r st ns e Hs Hd C)
        as (Hrel & Hsrc & Hdate & Hf & Hc & Hv & Hm & Hmi).
      fold it in Hrel, Hsrc, Hdate, Hf, Hc, Hv, Hm, Hmi.
      assert (dest (row it) = dest r) as Hdest
        by (unfold dest_path; by rewrite Hrel).
      rewrite Hf in Hs2, Hd2.
      assert (date_at (row it) st2 = None) as Hd'.
      { rewrite Hdate.
        by destruct (negb (file_exists (world st2) (dest (row it)))
                     && force_recopy). }
      destruct (iteration_failed (row it) st2 ns e)
        as (_ & _ & _ & Hf' & Hc' & Hv' & Hm' & Hmi'); [congruence|done| |].
      { rewrite Hsrc, Hdest. by apply (shutil_copy2_again _ _ (world st)). }
      fold it2 in Hf', Hc', Hv', Hm', Hmi'.
      rewrite Hsrc, Hdest in Hv', Hm'.
      rewrite (verdict_ext (world st2) (world st)) in Hv', Hm' by done.
      rewrite Hf', Hc', Hv', Hm', Hmi', Hv, Hm, Hmi. repeat split; lia.
    + (* the copy succeeded the first time *)
      destruct (iteration_copy_done r st ns w' Hs Hd C)
        as (Hrel & Hsrc & [d Hdate] & Hne & Hre & Hf & Hc & Hv & Hm & Hmi).
      fold it in Hrel, Hsrc, Hdate, Hf, Hc, Hv, Hm, Hmi.
      assert (dest (row it) = dest r) as Hdest
        by (unfold dest_path; by rewrite Hrel).
      rewrite Hf in Hs2, Hd2.
      rewrite lookup_insert_ne in Hs2 by done. rewrite lookup_insert_eq in Hd2.
      assert (date_at (row it) st2 = Some d) as Hd'.
      { by rewrite Hdest, Hdate, (file_exists_Some _ _ _ Hd2). }
      destruct (iteration_dated (row it) st2 ns d)
        as (_ & _ & _ & Hw' & Hc' & Hv' & Hm' & Hmi'); [congruence|done|].
      fold it2 in Hw', Hc', Hv', Hm', Hmi'.
      rewrite Hsrc, Hdest in Hv', Hm'.
      assert (verdict (world st2) (source_path r) (dest r) = Same) as Hver.
      { eapply (verdict_same _ _ _ ns); [congruence|exact Hd2|done..]. }
      rewrite Hver in Hv', Hm'.
      rewrite Hw', Hc', Hv', Hm', Hmi', Hv, Hm, Hmi. repeat split; lia.
  - (* the source file is missing *)
    destruct (iteration_absent folder1 force_recopy r st Hs)
      as (Hf & Hc & Hv & Hm & Hmi).
    destruct (iteration_basics folder1 force_recopy r st) as (Hrel & Hsrc & _).
    fold it in Hf, Hc, Hv, Hm, Hmi, Hrel, Hsrc.
    rewrite Hf, Hs in Hs2.
    destruct (iteration_absent folder1 force_recopy (row it) st2)
      as (Hf' & Hc' & Hv' & Hm' & Hmi'); [congruence|].
    fold it2 in Hf', Hc', Hv', Hm', Hmi'.
    rewrite Hf', Hc', Hv', Hm', Hmi', Hv, Hm, Hmi. repeat split; lia.
Qed.

(** An iteration writes at the destination of its record only. *)
Lemma iteration_frame r st p :
  p ≠ dest r →
  files (world (run (step r st))) !! p = files (world st) !! p.
Proof.
  intros Hp.
  destruct (files (world st) !! source_path r) as [ns|] eqn:Hs.
  - destruct (date_at r st) as [d|] eqn:Hd;
      [|destruct (shutil_copy2 (source_path r) (dest r) (world st))
          as [e|w'] eqn:C].
    + by destruct (iteration_dated r st ns d Hs Hd) as (_ & _ & _ & -> & _).
    + by destruct (iteration_failed r st ns e Hs Hd C) as (_ & _ & _ & -> & _).
    + destruct (iteration_copy_done r st ns w' Hs Hd C)
        as (_ & _ & _ & _ & _ & -> & _).
      by apply lookup_insert_ne.
  - by destruct (iteration_absent folder1 force_recopy r st Hs) as (-> & _).
Qed.

End Again.

Section LoopAgain.
Context `{RT : Runtime}.
Variable folder1 : Path.
Variable force_recopy : bool.

Local Abbreviation dest := (dest_path folder1).
Local Abbreviation step := (iteration folder1 force_recopy).
Local Abbreviation loop := (run_loop folder1 force_recopy).

Lemma run_loop_frame ts total i df st p :
  p ∉ dest <$> df →
  files (world (loop ts total i df st).2) !! p = files (world st) !! p.
Proof.
  revert i st. induction df as [|r rest IH]; intros i st Hp; [done|].
  rewrite run_loop_cons. cbv zeta. cbn [snd].
  rewrite fmap_cons, not_elem_of_cons in Hp. destruct Hp as [Hr Hrest].
  rewrite IH by done.
  destruct (finish_facts ts total i (step r st)) as (-> & _).
  by apply iteration_frame.
Qed.

Lemma run_loop_denied ts total i df st :
  write_denied (world (loop ts total i df st).2) = write_denied (world st).
Proof.
  revert i st. induction df as [|r rest IH]; intros i st; [done|].
  rewrite run_loop_cons. cbv zeta. cbn [snd]. rewrite IH.
  destruct (finish_facts ts total i (step r st)) as (-> & _).
  by destruct (iteration_basics folder1 force_recopy r st) as (_ & _ & _ & _ & -> & _).
Qed.

(** The loop changes neither the relative nor the source paths. *)
Lemma run_loop_paths ts total i df st :
  source_path <$> (loop ts total i df st).1 = source_path <$> df
  ∧ dest <$> (loop ts total i df st).1 = dest <$> df.
Proof.
  revert i st. induction df as [|r rest IH]; intros i st; [done|].
  rewrite run_loop_cons. cbv zeta. cbn [fst]. rewrite !fmap_cons.
  destruct (IH (S i) (finish ts total i (step r st))) as [-> ->].
  destruct (iteration_basics folder1 force_recopy r st) as (Hrel & -> & _).
  unfold dest_path at 1. by rewrite Hrel.
Qed.

(** Idempotence of the loop.  When no two records share a destination and
    no destination is the source of a record, running the loop again over
    the rows it produced, on a file system that agrees with the one it
    left at the paths of the inventory, copies nothing and moves the three
    other counters as the first run did. *)
Lemma run_loop_again ts ts2 total total2 df :
  ∀ i i2 st st2,
  NoDup (dest <$> df) →
  (∀ r r', r ∈ df → r' ∈ df → dest r ≠ source_path r') →
  let res := loop ts total i df st in
  (∀ r, r ∈ df →
     files (world st2) !! source_path r = files (world res.2) !! source_path r
     ∧ files (world st2) !! dest r = files (world res.2) !! dest r) →
  (∀ r, r ∈ df →
     write_denied (world st2) !! dest r = write_denied (world st) !! dest r) →
  let res2 := loop ts2 total2 i2 res.1 st2 in
  copied_files res2.2 = copied_files st2
  ∧ verified_files res2.2 + verified_files st
    = verified_files st2 + verified_files res.2
  ∧ mismatched_files res2.2 + mismatched_files st
    = mismatched_files st2 + mismatched_files res.2
  ∧ missing_files res2.2 + missing_files st
    = missing_files st2 + missing_files res.2.
Proof.
  induction df as [|r rest IH]; intros i i2 st st2 Hnd Hsep res Hfs Hwd res2.
  { subst res2 res. cbn. repeat split; lia. }
  subst res2 res. revert Hfs. rewrite run_loop_cons. cbv zeta. cbn [fst snd].
  intros Hfs. rewrite run_loop_cons. cbv zeta. cbn [fst snd].
  rewrite fmap_cons in Hnd. apply NoDup_cons in Hnd as [Hr Hnd].
  set (it := step r st) in *.
  set (sa := finish ts total i it) in *.
  assert (source_path r ∉ dest <$> rest) as Hsrc.
  { intros (r' & E & Hr')%list_elem_of_fmap.
    apply (Hsep r' r); [by right|by left|done]. }
  destruct (Hfs r) as [Hs2 Hd2]; [by left|].
  rewrite run_loop_frame in Hs2, Hd2 by done.
  destruct (finish_facts ts total i it) as (Fw & Fc & Fv & Fm & _).
  fold sa in Fw, Fc, Fv, Fm.
  assert (missing_files sa = missing_files (run it)) as Fmi by done.
  rewrite Fw in Hs2, Hd2.
  destruct (iteration_again folder1 force_recopy r st st2 Hs2 Hd2)
    as (Hf' & Hc' & Hv' & Hm' & Hmi'); [apply Hwd; by left|].
  fold it in Hf', Hc', Hv', Hm', Hmi'.
  set (it2 := step (row it) st2) in *.
  set (sb := finish ts2 total2 i2 it2) in *.
  destruct (finish_facts ts2 total2 i2 it2) as (Gw & Gc & Gv & Gm & _).
  fold sb in Gw, Gc, Gv, Gm.
  assert (missing_files sb = missing_files (run it2)) as Gmi by done.
  destruct (IH (S i) (S i2) sa sb) as (Ic & Iv & Im & Imi).
  - done.
  - intros r1 r2 H1 H2. apply Hsep; by right.
  - intros r' Hr'. rewrite Gw, Hf'. apply Hfs. by right.
  - intros r' Hr'. rewrite Gw, Fw.
    destruct (iteration_basics folder1 force_recopy (row it) st2)
      as (_ & _ & _ & _ & Hwd2 & _).
    destruct (iteration_basics folder1 force_recopy r st)
      as (_ & _ & _ & _ & Hwd1 & _).
    fold it in Hwd1. fold it2 in Hwd2. rewrite Hwd1, Hwd2. apply Hwd. by right.
  - clearbody it it2 sa sb.
    rewrite Ic, Gc, Hc'. repeat split; lia.
Qed.

End LoopAgain.

(** * The report and its backups *)

Section Names.

Lemma count_app c s t : Str.count c (s +:+ t) = Str.count c s + Str.count c t.
Proof. induction s as [|d s IH]; simpl; [done|]. rewrite IH. lia. Qed.

Lemma prefix_nil s : String.prefix "" s = true.
Proof. by destruct s. Qed.

Lemma prefix_cons a p c s :
  String.prefix (String a p) (String c s) = true →
  a = c ∧ String.prefix p s = true.
Proof. cbn. by destruct (ascii_dec a c). Qed.

Lemma prefix_app p s : String.prefix p s = true → ∃ t, s = p +:+ t.
Proof.
  revert s. induction p as [|c p IH]; intros s H.
  - by exists s.
  - destruct s as [|d s]; [done|].
    apply prefix_cons in H as [<- H].
    apply IH in H as [t ->]. by exists t.
Qed.

(** Removing the occurrences of ".xlsx" removes no underscore. *)
Lemma replace_from_count s :
  ∀ k, k ≤ 4 →
  String.prefix (String.substring (5 - k) k ".xlsx") s = true →
  Str.count "_" (Str.replace_from ".xlsx" "" k s) = Str.count "_" s.
Proof.
  induction s as [|c s IH]; intros k Hk HP; [by destruct k|].
  destruct k as [|[|[|[|[|k]]]]]; [| | | | |lia]; cbn [Str.replace_from].
  - destruct (String.prefix ".xlsx" (String c s)) eqn:E.
    + apply prefix_cons in E as [<- E]. cbn. apply (IH 4); [lia|done].
    + cbn [Str.count]. rewrite (IH 0); [done|lia|apply prefix_nil].
  - apply prefix_cons in HP as [<- HP]. cbn. apply (IH 0); [lia|apply prefix_nil].
  - apply prefix_cons in HP as [<- HP]. cbn. apply (IH 1); [lia|done].
  - apply prefix_cons in HP as [<- HP]. cbn. apply (IH 2); [lia|done].
  - apply prefix_cons in HP as [<- HP]. cbn. apply (IH 3); [lia|done].
Qed.

(** The report is not one of its own backups. *)
Lemma report_not_backup rp : is_backup_name rp (basename rp) = false.
Proof.
  unfold is_backup_name. set (b := basename rp).
  destruct (Str.startswith _ b) eqn:E; [|done]. exfalso.
  apply prefix_app in E as [t E].
  assert (Str.count "_" (Str.replace ".xlsx" "" b) = Str.count "_" b) as H
    by (apply replace_from_count; [lia|apply prefix_nil]).
  rewrite E in H at 2. rewrite !count_app in H. cbn in H. lia.
Qed.

End Names.

Section Frames.
Context `{RT : Runtime}.

(** The backup step touches the backups of the report and nothing else. *)
Lemma backup_excel_frame rp w w' :
  backup_excel rp w = inr w' →
  write_denied w' = write_denied w
  ∧ files w' !! rp = files w !! rp
  ∧ ∀ p, ¬ artifact rp p → files w' !! p = files w !! p.
Proof.
  unfold backup_excel. destruct (file_exists w rp); [|by intros [= <-]].
  cbn [now]. destruct (shutil_copy2 _ _ _) as [e|w2] eqn:C; [done|].
  apply shutil_copy2_inr in C as (n & Hn & Hne & _ & _ & ->).
  cbn [exc_bind]. intros [= <-]. unfold cleanup_old_backups.
  match goal with |- context [foldl remove_logged ?w0 _] => set (wc := w0) end.
  match goal with |- context [foldl remove_logged wc ?l] => set (old := l) end.
  assert (∀ p, p ∈ old → p ≠ [] ∧ dirname p = dirname rp
                         ∧ is_backup_name rp (basename p) = true) as Hold.
  { intros p Hp. apply subseteq_drop in Hp.
    by apply elem_of_backups in Hp as (_ & ? & ? & ?). }
  destruct (cleanup_loop_frame old wc) as (_ & -> & _).
  split; [done|]. split.
  - rewrite cleanup_loop_files. rewrite bool_decide_eq_false_2.
    + subst wc. cbn. by rewrite lookup_insert_ne.
    + intros [Hp _]. apply Hold in Hp as (_ & _ & Hp).
      by rewrite report_not_backup in Hp.
  - intros p Hp. rewrite cleanup_loop_files. rewrite bool_decide_eq_false_2.
    + subst wc. cbn. rewrite lookup_insert_ne; [done|].
      intros <-. apply Hp. right. left. by eexists.
    + intros [Ho _]. apply Hp. right. right. by apply Hold.
Qed.

Lemma write_workbook_inr p wb w w' :
  write_workbook p wb w = inr w' →
  write_denied w' = write_denied w
  ∧ files w' !! p = Some {| content := Xlsx wb; mtime := clock w;
                            read_error := None |}
  ∧ ∀ q, q ≠ p → files w' !! q = files w !! q.
Proof.
  unfold write_workbook. destruct (write_denied w !! p); [done|].
  intros [= <-]. cbn. split; [done|]. split; [apply lookup_insert_eq|].
  intros q Hq. by apply lookup_insert_ne.
Qed.

End Frames.

Section Reading.
Context `{RT : Runtime}.

Lemma parse_record_cells r : parse_record (record_cells r) = Some r.
Proof. by destruct r as [rel src [d|] e1 e2]. Qed.

Lemma mapM_parse_cells (df : DataFrame) :
  mapM parse_record (map record_cells df) = Some df.
Proof.
  induction df as [|r df IH]; [done|].
  cbn [map mapM]. rewrite parse_record_cells. cbn. by rewrite IH.
Qed.

Lemma map_value_plain (l : list CellValue) : map value (map plain l) = l.
Proof. induction l as [|v l IH]; [done|]. cbn. by rewrite IH. Qed.

Lemma values_plain (rows : list (list CellValue)) :
  map (map value) (map (map plain) rows) = rows.
Proof.
  induction rows as [|r rows IH]; [done|].
  cbn [map]. by rewrite map_value_plain, IH.
Qed.

(** What [pd.read_excel] returns depends on the values of the first
    sheet only; a table with the values that [to_excel] writes for [df]
    is read back as [df]. *)
Lemma read_excel_values name sh rest (df : DataFrame) :
  map (map value) sh = map VText columns :: map record_cells df →
  read_excel ((name, sh) :: rest) = inr df.
Proof.
  intros H. unfold read_excel. rewrite H.
  rewrite bool_decide_eq_true_2 by done. by rewrite mapM_parse_cells.
Qed.

Lemma read_excel_to_excel (df : DataFrame) : read_excel (to_excel df) = inr df.
Proof. apply read_excel_values, values_plain. Qed.

(** The rows written for records have five cells, and highlighting keeps
    their values. *)
Lemma highlight_row_record r :
  ∃ r', highlight_row 5 (map plain (record_cells r)) = inr r'
        ∧ map value r' = record_cells r.
Proof.
  unfold highlight_row. cbn [record_cells map length replicate Nat.sub app].
  replace (py_index _ _)
    with (Some (plain (from_option VText VEmpty (date_copied r))))
    by reflexivity.
  destruct (is_problem _); eexists; (split; [done|]); by destruct r.
Qed.

Lemma highlight_rows_records (df : DataFrame) :
  ∃ rows', highlight_rows 5 (map (map plain) (map record_cells df)) = inr rows'
           ∧ map (map value) rows' = map record_cells df.
Proof.
  induction df as [|r df (rows' & IH & Hv)]; [by eexists|].
  destruct (highlight_row_record r) as (r' & Hr & Hr').
  exists (r' :: rows'). cbn [map highlight_rows]. rewrite Hr. cbn [exc_bind].
  rewrite IH. cbn [exc_bind map]. by rewrite Hr', Hv.
Qed.

Lemma max_column_records (df : DataFrame) :
  max_column (map (map plain) (map VText columns :: map record_cells df)) = 5.
Proof.
  unfold max_column. cbn [map foldr length columns].
  assert (foldr Init.Nat.max 0
            (map length (map (map plain) (map record_cells df))) ≤ 5) as H.
  { induction df as [|r df IH]; cbn; [lia|]. cbn in IH. lia. }
  cbn. cbn in H. lia.
Qed.

(** Appending rows to the audit sheet leaves the first sheet alone. *)
Lemma sheet_append_rest name sh rest nm (rows : Sheet) :
  String.eqb name nm = false →
  ∃ rest',
    foldl (λ b r, sheet_append nm r b) ((name, sh) :: rest) rows
    = (name, sh) :: rest'.
Proof.
  intros Hne. revert rest. induction rows as [|r rows IH]; intros rest.
  - by eexists.
  - cbn [foldl sheet_append]. rewrite Hne. apply IH.
Qed.

Lemma audit_append_inr rp ts recs w w3 (df : DataFrame) nd :
  files w !! rp = Some nd → read_error nd = None →
  content nd = Xlsx (to_excel df) →
  audit_append rp ts recs w = inr w3 →
  write_denied w3 = write_denied w
  ∧ (∀ p, p ≠ rp → files w3 !! p = files w !! p)
  ∧ ∃ nd' book, files w3 !! rp = Some nd' ∧ read_error nd' = None
                ∧ content nd' = Xlsx book ∧ read_excel book = inr df.
Proof.
  intros Hn Hr Hc. unfold audit_append, load_workbook.
  rewrite Hn, Hr, Hc. cbn [exc_bind].
  unfold create_sheet, to_excel. cbn [app].
  rewrite <- (foldl_fmap (λ b r, sheet_append ("audit_" +:+ ts) r b)
                _ (audit_rows recs) (map plain)).
  destruct (sheet_append_rest "Sheet1"
              (map (map plain) (map VText columns :: map record_cells df))
              [("audit_" +:+ ts, [])] ("audit_" +:+ ts)
              (map plain <$> audit_rows recs)) as (rest' & ->); [done|].
  unfold highlight_main. rewrite max_column_records. cbn [map].
  destruct (highlight_rows_records df) as (rows' & -> & Hv).
  cbn [exc_bind]. intros H.
  apply write_workbook_inr in H as (Hw & Hf & Hframe).
  split; [done|]. split; [done|].
  eexists _, _. split; [exact Hf|]. split; [done|]. split; [done|].
  apply read_excel_values. cbn [map]. by rewrite map_value_plain, Hv.
Qed.

End Reading.

(** * Two runs in succession *)

Section TwoRuns.
Context `{RT : Runtime}.
Variables folder1 folder2 report_path : Path.
Variable force_recopy : bool.

Local Abbreviation sync :=
  (sync_and_verify folder1 folder2 report_path force_recopy).
Local Abbreviation dest := (dest_path folder1).

(** What a run that returns has done: the backup, the inventory, the loop,
    and a report from which the final inventory is read back. *)
Lemma sync_and_verify_inr w df1 st1 :
  sync w = inr (df1, st1) →
  ∃ w1 df st,
    backup_excel report_path (now w).2 = inr w1
    ∧ load_inventory folder2 report_path w1 = inr df
    ∧ run_loop folder1 force_recopy
        (strftime "%Y-%m-%d_%H-%M-%S" (clock w)) (length df) 0 df
        (init_state w1) = (df1, st)
    ∧ counters st1 = counters st
    ∧ write_denied (world st1) = write_denied w1
    ∧ (∀ p, p ≠ report_path → files (world st1) !! p = files (world st) !! p)
    ∧ ∃ nd book, files (world st1) !! report_path = Some nd
                 ∧ read_error nd = None ∧ content nd = Xlsx book
                 ∧ read_excel book = inr df1.
Proof.
  unfold sync_and_verify. cbn [now].
  destruct (backup_excel _ _) as [e|w1] eqn:B; [done|]. cbn [exc_bind].
  destruct (load_inventory _ _ _) as [e|df] eqn:L; [done|]. cbn [exc_bind].
  unfold reconcile.
  destruct (run_loop _ _ _ _ _ _ _) as [df' st] eqn:R.
  destruct (write_workbook _ _ _) as [e|w2] eqn:W; [done|]. cbn [exc_bind].
  intros [= <- <-]. exists w1, df, st.
  apply write_workbook_inr in W as (Wd & Wf & Wframe).
  assert (write_denied (world st) = write_denied w1) as Hd.
  { pose proof (run_loop_denied folder1 force_recopy
      (strftime "%Y-%m-%d_%H-%M-%S" (clock w)) (length df) 0 df (init_state w1)) as H.
    by rewrite R in H. }
  split; [done|]. split; [done|]. split; [done|].
  destruct (audit_append _ _ _ _) as [e|w3] eqn:A.
  - cbn. split; [done|]. split; [congruence|]. split; [done|].
    eexists _, _. split; [exact Wf|]. split; [done|]. split; [done|].
    apply read_excel_to_excel.
  - eapply audit_append_inr in A as (Ad & Aframe & nd & book & ?); [|exact Wf|done..].
    cbn. split; [done|]. split; [congruence|]. split.
    + intros p Hp. by rewrite Aframe, Wframe.
    + by exists nd, book.
Qed.

(** C5 (as the code has it). Two runs in succession that both return,
    with nothing else touching the file system in between: provided that,
    in the inventory, no two records have the same destination, no
    destination is the source of a record, and no source or destination is
    the report or one of its backups, the second run copies nothing and
    its three other counters equal those of the first run. *)
Theorem second_run_counters (w : World) (df1 df2 : DataFrame) (st1 st2 : RunState) :
  sync w = inr (df1, st1) →
  sync (world st1) = inr (df2, st2) →
  NoDup (dest <$> df1) →
  (∀ p, p ∈ dest <$> df1 → p ∉ source_path <$> df1) →
  (∀ p, p ∈ (source_path <$> df1) ++ (dest <$> df1) → ¬ artifact report_path p) →
  copied_files st2 = 0
  ∧ verified_files st2 = verified_files st1
  ∧ mismatched_files st2 = mismatched_files st1
  ∧ missing_files st2 = missing_files st1.
Proof.
  intros H1 H2 Hnd Hsep Hart.
  apply sync_and_verify_inr in H1
    as (w1 & df & st & _ & _ & R1 & C1 & D1 & F1 & nd & book & Hrp & Hre & Hco & Hrd).
  apply sync_and_verify_inr in H2
    as (w1' & df' & st' & B2 & L2 & R2 & C2 & _).
  apply backup_excel_frame in B2 as (Bd & Brp & Bframe).
  cbn [now snd files write_denied] in Bd, Brp, Bframe.
  assert (df' = df1) as ->.
  { unfold load_inventory, load_workbook in L2.
    rewrite (file_exists_Some w1' report_path nd) in L2 by congruence.
    rewrite Brp, Hrp, Hre, Hco in L2. cbn in L2. congruence. }
  pose proof (run_loop_paths folder1 force_recopy
    (strftime "%Y-%m-%d_%H-%M-%S" (clock w)) (length df) 0 df (init_state w1))
    as [Ps Pd].
  rewrite R1 in Ps, Pd. cbn [fst] in Ps, Pd.
  pose proof (run_loop_again folder1 force_recopy
    (strftime "%Y-%m-%d_%H-%M-%S" (clock w))
    (strftime "%Y-%m-%d_%H-%M-%S" (clock (world st1)))
    (length df) (length df1) df 0 0 (init_state w1) (init_state w1')) as A.
  cbv zeta in A. rewrite R1 in A. cbn [fst snd] in A. rewrite R2 in A.
  cbn [snd init_state world copied_files verified_files mismatched_files
       missing_files] in A.
  assert (∀ r, r ∈ df → ¬ artifact report_path (source_path r)
                        ∧ ¬ artifact report_path (dest r)) as Hout.
  { intros r Hr. split; apply Hart, elem_of_app; [left|right].
    - rewrite Ps. by apply list_elem_of_fmap_2.
    - rewrite Pd. by apply (list_elem_of_fmap_2 dest). }
  destruct A as (Ac & Av & Am & Ami).
  - by rewrite <- Pd.
  - intros r r' Hr Hr' E. apply (Hsep (dest r)).
    + rewrite Pd. by apply (list_elem_of_fmap_2 dest).
    + rewrite Ps, E. by apply list_elem_of_fmap_2.
  - intros r Hr. destruct (Hout r Hr) as [Hs Hd].
    split; (rewrite Bframe by done; apply F1; intros E);
      [apply Hs|apply Hd]; by left.
  - intros r Hr. by rewrite Bd, D1.
  - unfold counters in C1, C2. injection C1 as E1 E2 E3 E4.
    injection C2 as G1 G2 G3 G4. repeat split; lia.
Qed.

End TwoRuns.

Section TwoRunsDemo.
Import Demo.
#[local] Existing Instance Demo.runtime.

Lemma second_run_witness :
  counters (run_once internal world_pair).2 = (2, 2, 0, 0)
  ∧ counters (run_once internal (world (run_once internal world_pair).2)).2
    = (0, 2, 0, 0).
Proof.
  assert (succeeds (sync_and_verify internal external report_path false world_pair)
          = true) as S1 by (vm_compute; reflexivity).
  assert (succeeds (sync_and_verify internal external report_path false
                      (world (run_once internal world_pair).2))
          = true) as S2 by (vm_compute; reflexivity).
  destruct (second_run_counters internal external report_path false world_pair
              _ _ _ _
              (succeeds_pair ([], init_state world_pair) _ S1)
              (succeeds_pair
                 ([], init_state (world (run_once internal world_pair).2)) _ S2))
    as (Hc & Hv & Hm & Hmi).
  - apply (bool_decide_unpack _). vm_compute. reflexivity.
  - apply Forall_forall. apply (bool_decide_unpack _). vm_compute. reflexivity.
  - apply Forall_forall. vm_compute.
    repeat constructor;
      (intros [H|[[ts H]|(_ & H & _)]]; vm_compute in H; discriminate).
  - split; [vm_compute; reflexivity|].
    unfold counters. unfold run_once at 1 3 5 7.
    rewrite Hc, Hv, Hm, Hmi. vm_compute. reflexivity.
Defined.

(** C5, as stated, when the internal tree lies inside the external one
    ([ext/box] mirrors [ext]): in the first run the old copy
    [ext/box/docs/x] is itself mirrored before [ext/docs/x] is copied over
    it, so the second run finds a size mismatch where the first verified. *)
Lemma second_run_differs :
  let st1 := (run_once nested world_nested).2 in
  let st2 := (run_once nested (world st1)).2 in
  succeeds (sync_and_verify nested external report_path false world_nested) = true
  ∧ succeeds (sync_and_verify nested external report_path false (world st1)) = true
  ∧ counters st1 = (2, 2, 0, 0)
  ∧ counters st2 = (0, 1, 1, 0)
  ∧ verified_files st2 ≠ verified_files st1
  ∧ mismatched_files st2 ≠ mismatched_files st1.
Proof. vm_compute. repeat split; discriminate. Qed.

End TwoRunsDemo.
